(** * Verification model of the BIA660 Project 3 resolution pipeline

    Shallow embedding of [PT1_wikiScraping.py], [PT1_yFinScraping.py] and
    [PT1_bingSeleniumScraping.py].  Python [str] values are modelled as
    Rocq [string]s whose characters are the code points below 256
    (Latin-1), which covers the characters the code names explicitly
    (for instance the non-breaking space [\xa0]). *)

From Stdlib Require Import String Ascii List Bool Lia.
From stdpp Require Import base gmap strings list.
Import ListNotations.
Open Scope string_scope.

(* ------------------------------------------------------------------ *)
(** ** Python string primitives *)

Module PyStr.

(** [p] is a prefix of [s]. *)
Fixpoint prefixb (p s : string) : bool :=
  match p, s with
  | EmptyString, _ => true
  | String a p', String b s' => Ascii.eqb a b && prefixb p' s'
  | String _ _, EmptyString => false
  end.

(** Python's [needle in hay] for [str]: [hay] has a slice equal to [needle]. *)
Fixpoint py_contains (needle hay : string) : bool :=
  prefixb needle hay ||
  match hay with
  | EmptyString => false
  | String _ hay' => py_contains needle hay'
  end.

(** [str.isspace] on the code points below 256. *)
Definition py_isspace (c : ascii) : bool :=
  let n := nat_of_ascii c in
  ((9 <=? n) && (n <=? 13) || (28 <=? n) && (n <=? 32) || (n =? 133) || (n =? 160))%nat.

Fixpoint lstrip (s : string) : string :=
  match s with
  | EmptyString => EmptyString
  | String c s' => if py_isspace c then lstrip s' else s
  end.

Definition rev_str (s : string) : string := string_of_list_ascii (rev (list_ascii_of_string s)).

(** [str.strip()] with no argument. *)
Definition py_strip (s : string) : string := rev_str (lstrip (rev_str (lstrip s))).

(** [str.replace(a, b)] for one-character [a] and [b]. *)
Fixpoint replace_char (a b : ascii) (s : string) : string :=
  match s with
  | EmptyString => EmptyString
  | String c s' => String (if Ascii.eqb c a then b else c) (replace_char a b s')
  end.

(** [sep.join(pieces)]. *)
Fixpoint py_join (sep : string) (pieces : list string) : string :=
  match pieces with
  | [] => EmptyString
  | [p] => p
  | p :: ps => p ++ sep ++ py_join sep ps
  end.

(** Python truthiness of a [str]. *)
Definition str_truthy (s : string) : bool :=
  match s with EmptyString => false | _ => true end.

End PyStr.
Import PyStr.

(* ------------------------------------------------------------------ *)
(** ** Identity cards and the validation gate *)

(** A vCard dictionary [dict[str, str]]. *)
Abbreviation vcard := (gmap string string).

Definition traded_as_key : string := "Traded as".

(** [VCardDictionary.get('Traded as', '')]. *)
Definition traded_as (v : vcard) : string := default "" (v !! traded_as_key).

(** The acceptance test of line 92 of [PT1_wikiScraping.py]: the page is
    kept unless [Ticker not in VCardDictionary.get('Traded as', '')]. *)
Definition ticker_in_vcard (Ticker : string) (v : vcard) : bool :=
  py_contains Ticker (traded_as v).

(* ------------------------------------------------------------------ *)
(** ** [re] primitives used by the helpers

    A matcher [m s] tries the regular expression at the start of [s] and
    returns the text after the (greedy, leftmost) match.  The three
    patterns of the module never match the empty string. *)

Module Re.

Definition is_digit (c : ascii) : bool :=
  let n := nat_of_ascii c in ((48 <=? n) && (n <=? 57))%nat.

(** [[a-zA-Z\s]]. *)
Definition is_alpha_space (c : ascii) : bool :=
  let n := nat_of_ascii c in
  ((65 <=? n) && (n <=? 90) || (97 <=? n) && (n <=? 122))%nat || py_isspace c.

(** Longest prefix whose characters satisfy [p], and the rest. *)
Fixpoint span (p : ascii -> bool) (s : string) : string * string :=
  match s with
  | EmptyString => (EmptyString, EmptyString)
  | String c s' =>
      if p c then let '(a, b) := span p s' in (String c a, b) else (EmptyString, s)
  end.

(** [\[X+\]] for a character class [X] that excludes [']']. *)
Definition match_bracketed (cls : ascii -> bool) (s : string) : option string :=
  match s with
  | String "[" t =>
      let '(body, rest) := span cls t in
      match body, rest with
      | EmptyString, _ => None
      | _, String "]" rest' => Some rest'
      | _, _ => None
      end
  | _ => None
  end.

(** [r'\[\d+\]'] *)
Definition match_citation : string -> option string := match_bracketed is_digit.
(** [r'\[[a-zA-Z\s]+\]'] *)
Definition match_note : string -> option string := match_bracketed is_alpha_space.

Definition nl : ascii := ascii_of_nat 10.
(** [r'\n{3,}'] (greedy). *)
Definition match_nl3 (s : string) : option string :=
  match s with
  | String a (String b (String c t)) =>
      if Ascii.eqb a nl && Ascii.eqb b nl && Ascii.eqb c nl
      then Some (snd (span (Ascii.eqb nl) t)) else None
  | _ => None
  end.

(** [re.sub(pattern, repl, s)]: scan left to right; where the pattern
    matches, emit [repl] and resume after the match, otherwise copy one
    character.  [fuel] bounds the number of steps ([length s] is enough). *)
Fixpoint sub_fuel (m : string -> option string) (repl : string) (fuel : nat) (s : string)
  : string :=
  match fuel with
  | O => s
  | S f =>
      match s with
      | EmptyString => EmptyString
      | String c t =>
          match m s with
          | Some rest => repl ++ sub_fuel m repl f rest
          | None => String c (sub_fuel m repl f t)
          end
      end
  end.

Definition sub (m : string -> option string) (repl : string) (s : string) : string :=
  sub_fuel m repl (String.length s) s.

(** Case-insensitive equality of characters under [re.IGNORECASE]; on the
    code points below 256 only the ASCII letters have other-case partners
    among the letters of the section names. *)
Definition lower (c : ascii) : ascii :=
  let n := nat_of_ascii c in
  if ((65 <=? n) && (n <=? 90))%nat then ascii_of_nat (n + 32) else c.

Definition ci_eqb (a b : ascii) : bool := Ascii.eqb (lower a) (lower b).

(** The literal pattern [p] matches at the start of [s] ignoring case. *)
Fixpoint prefix_ci (p s : string) : bool :=
  match p, s with
  | EmptyString, _ => true
  | String a p', String b s' => ci_eqb a b && prefix_ci p' s'
  | String _ _, EmptyString => false
  end.

(** [re.split(p, s, flags=re.IGNORECASE)[0]] for a literal pattern [p]:
    the text before the leftmost match, or all of [s]. *)
Fixpoint split_first (p s : string) : string :=
  if prefix_ci p s then EmptyString
  else match s with
       | EmptyString => EmptyString
       | String c s' => String c (split_first p s')
       end.

(** Some slice of [s] matches the literal [p] ignoring case. *)
Fixpoint contains_ci (p s : string) : bool :=
  prefix_ci p s ||
  match s with
  | EmptyString => false
  | String _ s' => contains_ci p s'
  end.

End Re.

(* ------------------------------------------------------------------ *)
(** ** [CleanWikipediaContent] *)

Definition EndSections : list string :=
  ["See also"; "References"; "External links"; "Further reading"; "Notes"; "Citations"].

(** [f'\n== {Section} ==\n'] *)
Definition section_pattern (Section : string) : string :=
  String Re.nl ("== " ++ Section ++ " ==" ++ String Re.nl EmptyString).

(** The [for Section in EndSections] loop. *)
Definition cut_end_sections (Content : string) : string :=
  fold_left (fun C Section => Re.split_first (section_pattern Section) C) EndSections Content.

Definition CleanWikipediaContent (Content : string) : string :=
  if negb (str_truthy Content) then ""
  else
    let Content := Re.sub Re.match_citation "" Content in
    let Content := Re.sub Re.match_note "" Content in
    let Content := cut_end_sections Content in
    let Content := Re.sub Re.match_nl3 (String Re.nl (String Re.nl EmptyString)) Content in
    py_strip Content.


(** Specification side, for comparison with [CleanWikipediaContent]: the
    cleaning as the claim words it, cutting the text before the first
    position at which any heading line of [EndSections] starts. *)
Fixpoint cut_at_first_heading (s : string) : string :=
  if existsb (fun Section => Re.prefix_ci (section_pattern Section) s) EndSections
  then EmptyString
  else match s with
       | EmptyString => EmptyString
       | String c s' => String c (cut_at_first_heading s')
       end.

Definition clean_as_claimed (Content : string) : string :=
  if negb (str_truthy Content) then ""
  else py_strip (Re.sub Re.match_nl3 (String Re.nl (String Re.nl EmptyString))
                   (cut_at_first_heading
                      (Re.sub Re.match_note "" (Re.sub Re.match_citation "" Content)))).

(** Number of leading newlines. *)
Fixpoint lead_nl (s : string) : nat :=
  match s with
  | String c s' => if Ascii.eqb c Re.nl then S (lead_nl s') else O
  | EmptyString => O
  end.

Definition nl3 : string := String Re.nl (String Re.nl (String Re.nl EmptyString)).

(* ------------------------------------------------------------------ *)
(** ** [ParseVCard]

    BeautifulSoup is an external collaborator.  A parsed page is modelled
    by what the code asks of it: the [<table>] elements in document order
    with their CSS classes, and for each table the rows [find_all('tr')]
    returns, each with the text nodes of its first [<th>] and of its first
    [<td>] descendant ([None] when [Row.find] finds no such cell). *)

Record row := { row_th : option (list string); row_td : option (list string) }.
Record table := { table_classes : list string; table_rows : list row }.
Abbreviation html_doc := (list table).

Definition nbsp : ascii := ascii_of_nat 160.

(** [Tag.get_text(separator, strip=True)]: the text nodes, each stripped,
    empty ones skipped, joined with [separator]. *)
Definition get_text (separator : string) (strings : list string) : string :=
  py_join separator (List.filter str_truthy (List.map py_strip strings)).

(** [Soup.find('table', class_ = ['inforbox', 'vcard'])]. *)
Definition find_infobox (Soup : html_doc) : option table :=
  List.find (fun t => existsb (fun c => String.eqb c "inforbox" || String.eqb c "vcard")
                              (table_classes t)) Soup.

(** The body of [for Row in Infobox.find_all('tr')]. *)
Definition parse_row (V : vcard) (Row : row) : vcard :=
  match row_th Row, row_td Row with
  | Some Header, Some Data =>
      let Key := replace_char nbsp " " (get_text "" Header) in
      let Value := replace_char nbsp " " (get_text " " Data) in
      let Value := Re.sub Re.match_citation "" Value in
      if str_truthy Key && str_truthy Value then <[Key := Value]> V else V
  | _, _ => V
  end.

Definition ParseVCard (HTML : html_doc) : vcard :=
  match find_infobox HTML with
  | None => ∅
  | Some Infobox => fold_left parse_row (table_rows Infobox) ∅
  end.

(** Specification side of the identity-card extraction: [Row] has a header
    and a data cell, [k] is the header text and [v] the data text, with
    non-breaking spaces normalised and [[digits]] citation markers removed
    from the value, and neither is empty. *)
Definition row_gives (Row : row) (k v : string) : Prop :=
  exists Header Data,
    row_th Row = Some Header /\ row_td Row = Some Data /\
    k = replace_char nbsp " " (get_text "" Header) /\
    v = Re.sub Re.match_citation "" (replace_char nbsp " " (get_text " " Data)) /\
    k <> "" /\ v <> "".

(** The entry [parse_row] adds for a row, if any. *)
Definition row_entry (Row : row) : option (string * string) :=
  match row_th Row, row_td Row with
  | Some Header, Some Data =>
      let Key := replace_char nbsp " " (get_text "" Header) in
      let Value := Re.sub Re.match_citation "" (replace_char nbsp " " (get_text " " Data)) in
      if str_truthy Key && str_truthy Value then Some (Key, Value) else None
  | _, _ => None
  end.

(** A table carries one of the class markers [Soup.find] looks for. *)
Definition has_infobox_class (t : table) : Prop :=
  exists c, In c (table_classes t) /\ (c = "inforbox" \/ c = "vcard").

(* ------------------------------------------------------------------ *)
(** ** Python results *)

(** The exceptions the code distinguishes. *)
Inductive py_exc :=
| ExcPageError                              (* wikipedia.exceptions.PageError *)
| ExcDisambiguation (options : list string) (* wikipedia.exceptions.DisambiguationError *)
| ExcOther (msg : string).                  (* any other exception *)

(** A call that returns a value or raises. *)
Inductive result (A : Type) := Ok (a : A) | Err (e : py_exc).
Arguments Ok {A} a.
Arguments Err {A} e.

Definition exc_str (e : py_exc) : string :=
  match e with
  | ExcPageError => "PageError"
  | ExcDisambiguation _ => "DisambiguationError"
  | ExcOther m => m
  end.

(** [(URL, VCardDictionary, Cleaned)] as returned by [getFromWikipedia]. *)
Abbreviation triple := (option string * option vcard * option string)%type.
Definition none3 : triple := (None, None, None).

(** [str.split(sep)] for a non-empty [sep]: the pieces between the leftmost
    non-overlapping occurrences.  [fuel] bounds the recursion. *)
Fixpoint split_fuel (fuel : nat) (sep s : string) : list string :=
  match fuel with
  | O => [s]
  | S f =>
      if prefixb sep s then "" :: split_fuel f sep (substring (String.length sep) (String.length s) s)
      else match s with
           | EmptyString => [""]
           | String c t =>
               match split_fuel f sep t with
               | p :: ps => String c p :: ps
               | [] => [String c EmptyString]
               end
           end
  end.

Definition py_split (sep s : string) : list string := split_fuel (S (String.length s)) sep s.

(* ------------------------------------------------------------------ *)
(** ** [getFromWikipedia] and the Pass-1 orchestrator loop *)

Record wiki_page := { page_url : string; page_html : html_doc; page_content : string }.

(** A stored document of [Project3.PortfolioIntelligence].  The outer
    [option] of a [wiki_*] field is the field's presence, the inner one a
    stored [None] (BSON null). *)
Record doc := {
  ticker : string;
  company_name : string;
  etf_holding_date : string;
  wiki_url : option string;
  wiki_content : option (option string);
  wiki_vcard : option (option vcard);
  wiki_resolver : option string
}.

(** The fields [update_one] filters on: [{'ticker', 'etf_holding_date'}]. *)
Definition doc_key (d : doc) : string * string := (ticker d, etf_holding_date d).

(** [Collection.find({"wiki_resolver": {"$exists": False}})]. *)
Definition is_unresolved (d : doc) : bool :=
  match wiki_resolver d with None => true | Some _ => false end.
Definition find_unresolved (store : list doc) : list doc := List.filter is_unresolved store.

(** [Collection.update_one(filter, {'$set': ...})]: the first document in
    natural order matching the filter is updated; none matching, nothing. *)
Fixpoint update_one (T D : string) (set : doc -> doc) (store : list doc) : list doc :=
  match store with
  | [] => []
  | d :: ds =>
      if String.eqb (ticker d) T && String.eqb (etf_holding_date d) D
      then set d :: ds else d :: update_one T D set ds
  end.

(** [{'$set': doc}] with the [doc] built by the loop. *)
Definition set_resolved (Ticker Company URL : string) (Content : option string)
    (VCard : option vcard) (d : doc) : doc :=
  {| ticker := Ticker; company_name := Company; etf_holding_date := etf_holding_date d;
     wiki_url := Some URL; wiki_content := Some Content; wiki_vcard := Some VCard;
     wiki_resolver := Some "wikipedia" |}.

(** State of one run: the store, the records passed to [getFromWikipedia]
    and the [update_one] calls issued, by filter key. *)
Record run_state := {
  rs_store : list doc;
  rs_calls : list (string * string);
  rs_writes : list (string * string)
}.

Section Wikipedia.

(** [wikipedia.search(query, results = 1)]. *)
Variable wiki_search : string -> result (list string).
(** [wikipedia.page(title, auto_suggest = False, redirect = True)]. *)
Variable wiki_page_of : string -> result wiki_page.

(** Lines 48-71: the page title, or [None] for the early
    [return None, None, None]. *)
Definition page_title (Company URL : string) : option string :=
  let PageTitle :=
    if str_truthy URL then
      let PageTitle := List.last (py_split "/wiki/" URL) "" in
      if negb (str_truthy PageTitle) then None else Some PageTitle
    else
      match wiki_search Company with
      | Err _ => None
      | Ok [] => None
      | Ok (t :: _) => Some t
      end in
  match PageTitle with
  | Some t => if negb (str_truthy t) then None else Some t
  | None => None
  end.

Definition getFromWikipedia (Company Ticker URL : string) : result triple :=
  match page_title Company URL with
  | None => Ok none3
  | Some PageTitle =>
      match wiki_page_of PageTitle with
      | Err ExcPageError => Ok none3
      | Err (ExcDisambiguation _) => Ok none3
      | Err e => Err e
      | Ok Page =>
          let URL := page_url Page in
          let VCardDictionary := ParseVCard (page_html Page) in
          let Cleaned := CleanWikipediaContent (page_content Page) in
          if negb (ticker_in_vcard Ticker VCardDictionary) then Ok none3
          else Ok (Some URL, Some VCardDictionary, Some Cleaned)
      end
  end.

(** One iteration of [for Row in DF.itertuples()] (lines 157-185). *)
Definition process_row (st : run_state) (Row : doc) : run_state :=
  let Company := company_name Row in
  let Ticker := ticker Row in
  let calls := (rs_calls st ++ [doc_key Row])%list in
  let skip := {| rs_store := rs_store st; rs_calls := calls; rs_writes := rs_writes st |} in
  match getFromWikipedia Company Ticker "" with
  | Err _ => skip
  | Ok (URL, VCard, Content) =>
      match URL with
      | Some u =>
          if str_truthy u then
            {| rs_store := update_one Ticker (etf_holding_date Row)
                             (set_resolved Ticker Company u Content VCard) (rs_store st);
               rs_calls := calls;
               rs_writes := (rs_writes st ++ [(Ticker, etf_holding_date Row)])%list |}
          else skip
      | None => skip
      end
  end.

(** Whether [process_row] issues the [update_one] for [Row]: the call
    returned and its [URL] is truthy. *)
Definition row_writes (Row : doc) : bool :=
  match getFromWikipedia (company_name Row) (ticker Row) "" with
  | Ok (Some u, _, _) => str_truthy u
  | _ => false
  end.

(** [DF] is the snapshot read once before the loop. *)
Definition orchestrate (store : list doc) : run_state :=
  fold_left process_row (find_unresolved store)
            {| rs_store := store; rs_calls := []; rs_writes := [] |}.

End Wikipedia.


(* ------------------------------------------------------------------ *)
(** ** [getFromYahooFinance] *)

(** [dict.get(key)] on a dictionary given by its items. *)
Fixpoint dict_get (key : string) (items : list (string * string)) : option string :=
  match items with
  | [] => None
  | (k, v) :: rest => if String.eqb k key then Some v else dict_get key rest
  end.

Definition dict_has (key : string) (items : list (string * string)) : bool :=
  match dict_get key items with Some _ => true | None => false end.

Definition vcard_columns : list string :=
  ["address1"; "city"; "state"; "zip"; "country"; "phone"; "website";
   "industry"; "industryKey"; "industryDisp"; "sector"].

Record yf_candidate := { yf_url : string; yf_vcard : list (string * string); yf_content : string }.

Section YahooFinance.

(** Reading [yf_ticker.info] for a [yf.Ticker(symbol)]: the items of the
    financial-data source's response for [symbol], or the exception the
    request raises.  The source answers a symbol the same way throughout
    one call. *)
Variable yf_info : string -> result (list (string * string)).

(** Returns the function's result ([Err] when an exception leaves it) and
    the symbols passed to [yf.Ticker], in order. *)
Definition getFromYahooFinance (ticker : string) : result (option yf_candidate) * list string :=
  let yf_ticker := ticker in
  (* line 30, before the [try] *)
  match yf_info yf_ticker with
  | Err e => (Err e, [ticker])
  | Ok info =>
      let '(yf_ticker, queried) :=
        if negb (dict_has "longBusinessSummary" info) then
          let ticker_dash := replace_char "." "-" ticker in (ticker_dash, [ticker; ticker_dash])
        else (yf_ticker, [ticker]) in
      (* the [try] of lines 35-61; its [except Exception] returns [None] *)
      match yf_info yf_ticker with
      | Err _ => (Ok None, queried)
      | Ok items =>
          let vcard_dictionary :=
            List.filter (fun kv => existsb (String.eqb (fst kv)) vcard_columns) items in
          match yf_info yf_ticker with
          | Err _ => (Ok None, queried)
          | Ok info' =>
              let content := default "" (dict_get "longBusinessSummary" info') in
              if negb (str_truthy content) then (Ok None, queried)
              else (Ok (Some {| yf_url := "https://finance.yahoo.com/quote/" ++ ticker;
                                yf_vcard := vcard_dictionary; yf_content := content |}), queried)
          end
      end
  end.

End YahooFinance.

(* ------------------------------------------------------------------ *)
(** ** The Bing search worker and [getFromBingSelenium] *)

(** The Python values that cross the result queue. *)
Inductive PyVal :=
| PNone
| PStr (s : string)
| PDict (m : vcard)
| PTuple (items : list PyVal).

(** Python truthiness. *)
Definition py_truthy (v : PyVal) : bool :=
  match v with
  | PNone => false
  | PStr s => str_truthy s
  | PDict m => negb (bool_decide (m = ∅))
  | PTuple items => match items with [] => false | _ => true end
  end.

Definition opt_py {A} (f : A -> PyVal) (o : option A) : PyVal :=
  match o with Some a => f a | None => PNone end.

(** The tuple [getFromWikipedia] returns, as a Python value. *)
Definition triple_py (t : triple) : PyVal :=
  let '(u, v, c) := t in PTuple [opt_py PStr u; opt_py PDict v; opt_py PStr c].

(** The items [result_queue.put] sends. *)
Inductive qmsg :=
| QSuccess (url : string) (data : PyVal)   (* ('success', wikipedia_url, wiki_data) *)
| QNoUrl                                   (* ('no_url', None, None) *)
| QError (msg : string).                   (* ('error', None, str(err)) *)

Definition opt_truthy (u : option string) : bool :=
  match u with Some s => str_truthy s | None => false end.

Section Worker.

Variable wiki_search : string -> result (list string).
Variable wiki_page_of : string -> result wiki_page.
(** [create_driver(...)]: returns a driver or raises. *)
Variable create_driver : result unit.
(** [search_bing_for_wiki(company, ticker, driver)] at a given attempt. *)
Variable search_bing_for_wiki : nat -> result (option string).

(** [for attempt in range(attempt, attempt + n)], keeping the last
    [wikipedia_url]; the backoff sleep has no observable effect here. *)
Fixpoint retry_search (attempt n : nat) (wikipedia_url : option string)
  : result (option string) :=
  match n with
  | O => Ok wikipedia_url
  | S n' =>
      match search_bing_for_wiki attempt with
      | Err e => Err e
      | Ok u => if opt_truthy u then Ok u else retry_search (S attempt) n' u
      end
  end.

(** [_search_with_timeout_worker]: the items it puts on [result_queue].
    The [finally] clause only quits the driver. *)
Definition _search_with_timeout_worker (company ticker : string) (retries : nat) : list qmsg :=
  match create_driver with
  | Err err => [QError (exc_str err)]
  | Ok _ =>
      match retry_search 1 retries None with
      | Err err => [QError (exc_str err)]
      | Ok wikipedia_url =>
          match wikipedia_url with
          | Some u =>
              if str_truthy u then
                match getFromWikipedia wiki_search wiki_page_of company ticker u with
                | Ok wiki_data => [QSuccess u (triple_py wiki_data)]
                | Err err => [QError (exc_str err)]
                end
              else [QNoUrl]
          | None => [QNoUrl]
          end
      end
  end.

(** Lines 370-389 of [getFromBingSelenium]: the worker has exited before
    the deadline and the caller reads [result_queue]. *)
Definition read_result (queue : list qmsg) : PyVal :=
  match queue with
  | [] => PNone
  | QSuccess _ data :: _ => if py_truthy data then data else PNone
  | QNoUrl :: _ => PNone
  | QError _ :: _ => PNone
  end.

(** [getFromBingSelenium] when [worker.is_alive()] is false after
    [worker.join(timeout=SEARCH_TIMEOUT)]. *)
Definition getFromBingSelenium (company ticker : string) (retries : nat) : PyVal :=
  read_result (_search_with_timeout_worker company ticker retries).

End Worker.

(* ------------------------------------------------------------------ *)
(** ** Supervision of the worker process

    Process model: [worker.terminate()] and [worker.kill()] send SIGTERM
    and SIGKILL.  Sending a signal does not stop the target by itself: the
    kernel ends the process when the signal is delivered, which for a task
    in uninterruptible sleep waits until the sleep ends.  While the caller
    waits in [worker.join(...)] the worker may exit (finish, or have a
    signal delivered); outside a wait the caller does not observe it. *)

Module Supervision.

Record proc := { running : bool; sigterm_sent : bool; sigkill_sent : bool }.

Definition SEARCH_TIMEOUT : nat := 120.
Definition GRACE : nat := 5.

(** What [worker.join(timeout)] can leave behind: the worker is unchanged
    (the timeout elapsed) or it has exited. *)
Inductive join_wait : proc -> proc -> Prop :=
| join_elapsed p : join_wait p p
| join_exited p :
    join_wait p {| running := false; sigterm_sent := sigterm_sent p; sigkill_sent := sigkill_sent p |}.

Definition terminate (p : proc) : proc :=
  {| running := running p; sigterm_sent := true; sigkill_sent := sigkill_sent p |}.
Definition kill (p : proc) : proc :=
  {| running := running p; sigterm_sent := sigterm_sent p; sigkill_sent := true |}.

(** Lines 359-368: [join_result] is the caller's return value when it
    returns on this path ([None] = [PNone]); [None] of [option] when the
    caller goes on to read the queue. *)
Inductive bing_call : proc -> proc -> option PyVal -> Prop :=
| call_finished p p1 :
    join_wait p p1 -> running p1 = false -> bing_call p p1 None
| call_timeout p p1 p2 p3 :
    join_wait p p1 -> running p1 = true ->
    join_wait (terminate p1) p2 ->
    p3 = (if running p2 then kill p2 else p2) ->
    bing_call p p3 (Some PNone).

End Supervision.


(* ------------------------------------------------------------------ *)
(** ** [bing_url]: [urllib.parse.quote_plus]

    [quote_plus(string, safe='')]: a string without a space is passed to
    [quote(string, '')]; otherwise to [quote(string, ' ')], whose spaces
    are then replaced by ['+'].  [quote] encodes the text in UTF-8 and
    keeps the bytes of [_ALWAYS_SAFE] and of [safe]; every other byte
    becomes ['%XX'] with upper-case hexadecimal digits. *)

Module Url.

(** [_ALWAYS_SAFE]: ASCII letters, digits and ['_.-~']. *)
Definition always_safe (c : ascii) : bool :=
  let n := nat_of_ascii c in
  ((65 <=? n) && (n <=? 90) || (97 <=? n) && (n <=? 122) || (48 <=? n) && (n <=? 57)
   || (n =? 95) || (n =? 46) || (n =? 45) || (n =? 126))%nat.

(** UTF-8 encoding of a code point below 256. *)
Definition utf8_bytes (c : ascii) : list nat :=
  let n := nat_of_ascii c in
  if (n <? 128)%nat then [n] else [(192 + n / 64)%nat; (128 + n mod 64)%nat].

Definition utf8_encode (s : string) : list nat := concat (map utf8_bytes (list_ascii_of_string s)).

Definition hexdig (n : nat) : ascii :=
  if (n <? 10)%nat then ascii_of_nat (48 + n) else ascii_of_nat (55 + n).

(** ['%{:02X}'.format(b)] *)
Definition pct (b : nat) : string :=
  String "%" (String (hexdig (b / 16)) (String (hexdig (b mod 16)) EmptyString)).

(** The quoter of [quote_from_bytes] for one byte. *)
Definition quote_byte (safe : string) (b : nat) : string :=
  if ((b <? 128)%nat && (always_safe (ascii_of_nat b) || py_contains (String (ascii_of_nat b) EmptyString) safe))
  then String (ascii_of_nat b) EmptyString
  else pct b.

Definition quote (safe s : string) : string :=
  String.concat "" (map (quote_byte safe) (utf8_encode s)).

Definition quote_plus (s : string) : string :=
  if negb (py_contains " " s) then quote "" s
  else replace_char " " "+" (quote " " s).

End Url.

(** [bing_url(query)] *)
Definition bing_url (query : string) : string :=
  "https://www.bing.com/search?q=" ++ Url.quote_plus query.

(** The query of [search_bing_for_wiki]. *)
Definition bing_query (company : string) : string := company ++ " site:wikipedia.org".

(** Inverse of [quote_plus] on its results, used to show that it loses no
    information: ['+'] is a space, ['%XX'] a byte, a lead byte of a two-byte
    UTF-8 sequence is combined with the ['%XX'] after it. *)
Definition hexval (c : ascii) : nat :=
  let n := nat_of_ascii c in if (n <? 65)%nat then n - 48 else n - 55.

Fixpoint decode_query (s : string) : string :=
  match s with
  | EmptyString => EmptyString
  | String "+" r => String " " (decode_query r)
  | String "%" (String h1 (String h2 r)) =>
      let b := (hexval h1 * 16 + hexval h2)%nat in
      if (b <? 128)%nat then String (ascii_of_nat b) (decode_query r)
      else match r with
           | String "%" (String h3 (String h4 r')) =>
               String (ascii_of_nat ((b - 192) * 64 + (hexval h3 * 16 + hexval h4 - 128)))
                      (decode_query r')
           | _ => EmptyString
           end
  | String c r => String c (decode_query r)
  end.

(* ------------------------------------------------------------------ *)
(** ** [extract_wikipedia_url] and [search_bing_for_wiki]

    The browser is an external collaborator: its state is abstract, and
    each WebDriver call is a function of the state that may raise.  Calls
    that navigate return the new state also when they raise.  [debug] is
    [False] on every call path of the pipeline. *)

Definition wiki_marker : string := "en.wikipedia.org/wiki/".

(** [href.split("#")[0].split("?")[0]] *)
Definition clean_url (u : string) : string :=
  hd "" (py_split "?" (hd "" (py_split "#" u))).

Definition is_redirect (href : string) : bool :=
  py_contains "bing.com/ck/a" href || py_contains "/r.php" href || py_contains "go.microsoft.com" href.

(** Outcome of [wait.until(...)] in [search_bing_for_wiki]. *)
Inductive wait_outcome := WaitFound | WaitTimeout | WaitRaised (e : py_exc).

Section Bing.

Variable D : Type.
(** [driver.find_elements(By.CSS_SELECTOR, "li.b_algo h2 a")]: the number of anchors. *)
Variable find_anchors : D -> result nat.
(** [anchors[idx].get_attribute("href")] in the current state. *)
Variable get_href : D -> nat -> result (option string).
(** [driver.current_url] *)
Variable current_url : D -> result string.
(** [driver.get(url)] and [driver.back()] *)
Variable driver_get : D -> string -> D * result unit.
Variable driver_back : D -> D * result unit.
(** [driver.execute_script(script)] *)
Variable execute_script : D -> string -> D * result unit.
(** [WebDriverWait(driver, 15, ...).until(...)] *)
Variable wait_results : D -> wait_outcome.

(** The loop state: the driver and the local [current] ([None] while unbound). *)
Inductive scan_step := Found (u : string) (d : D) | Next (d : D) (current : option string).

(** The [except] clause of the redirect branch:
    [if driver.current_url != current: driver.get(current)], all errors
    (an unbound [current] included) ignored. *)
Definition restore (d : D) (current : option string) : D :=
  match current_url d with
  | Err _ => d
  | Ok u =>
      match current with
      | None => d
      | Some c => if String.eqb u c then d else fst (driver_get d c)
      end
  end.

(** The body of [for idx, a in enumerate(anchors)]. *)
Definition scan_anchor (d : D) (current : option string) (idx : nat) : scan_step :=
  match get_href d idx with
  | Err _ => Next d current
  | Ok None => Next d current
  | Ok (Some href) =>
      if negb (str_truthy href) then Next d current
      else if py_contains wiki_marker href then Found (clean_url href) d
      else if is_redirect href then
        match current_url d with
        | Err _ => Next (restore d current) current
        | Ok cur =>
            let '(d1, r) := driver_get d href in
            match r with
            | Err _ => Next (restore d1 (Some cur)) (Some cur)
            | Ok _ =>
                match current_url d1 with
                | Err _ => Next (restore d1 (Some cur)) (Some cur)
                | Ok actual_url =>
                    let d2 := fst (driver_back d1) in
                    if str_truthy actual_url && py_contains wiki_marker actual_url
                    then Found (clean_url actual_url) d2
                    else Next d2 (Some cur)
                end
            end
        end
      else Next d current
  end.

Fixpoint scan_anchors (idxs : list nat) (d : D) (current : option string) : option string * D :=
  match idxs with
  | [] => (None, d)
  | idx :: idxs' =>
      match scan_anchor d current idx with
      | Found u d' => (Some u, d')
      | Next d' current' => scan_anchors idxs' d' current'
      end
  end.

(** The loop state after the body has run on [idxs] without returning. *)
Fixpoint scan_upto (idxs : list nat) (d : D) (current : option string) : scan_step :=
  match idxs with
  | [] => Next d current
  | idx :: idxs' =>
      match scan_anchor d current idx with
      | Found u d' => Found u d'
      | Next d' current' => scan_upto idxs' d' current'
      end
  end.

(** [extract_wikipedia_url(driver, debug=False)]: one selector. *)
Definition extract_wikipedia_url (d : D) : option string * D :=
  match find_anchors d with
  | Err _ => (None, d)
  | Ok n => scan_anchors (seq 0 n) d None
  end.

(** The non-empty [href]s of the anchors [0 .. n-1] in state [d], in order. *)
Definition anchor_hrefs (d : D) (n : nat) : list string :=
  flat_map (fun i => match get_href d i with
                     | Ok (Some h) => if str_truthy h then [h] else []
                     | _ => []
                     end) (seq 0 n).

(** [_human_like_page_warmup(driver)]: the first failing script ends it. *)
Definition _human_like_page_warmup (d : D) : D :=
  let '(d1, r) := execute_script d "window.scrollBy(0, Math.min(400, document.body.scrollHeight));" in
  match r with
  | Err _ => d1
  | Ok _ => fst (execute_script d1 "window.scrollTo(0, 0);")
  end.

(** [search_bing_for_wiki(company, ticker, driver, debug=False)]. *)
Definition search_bing_for_wiki (company ticker : string) (d : D) : result (option string) * D :=
  let url := bing_url (bing_query company) in
  let '(d1, r) := driver_get d url in
  match r with
  | Err _ => (Ok None, d1)
  | Ok _ =>
      let d2 := _human_like_page_warmup d1 in
      match wait_results d2 with
      | WaitRaised e => (Err e, d2)
      | _ => let '(u, d3) := extract_wikipedia_url d2 in (Ok u, d3)
      end
  end.

End Bing.

(* ------------------------------------------------------------------ *)
(** ** [test_bing_selenium] *)

Definition RETRIES : nat := 1.

Record test_record := { tr_ticker : string; tr_status : string; tr_error : option string }.

(** [value[key]] for a [str] key. *)
Definition py_getitem (v : PyVal) (key : string) : result PyVal :=
  match v with
  | PDict m =>
      match m !! key with
      | Some s => Ok (PStr s)
      | None => Err (ExcOther ("'" ++ key ++ "'"))
      end
  | PTuple _ => Err (ExcOther "tuple indices must be integers or slices, not str")
  | PStr _ => Err (ExcOther "string indices must be integers, not 'str'")
  | PNone => Err (ExcOther "'NoneType' object is not subscriptable")
  end.

(** [value[:120]] (only its failure matters). *)
Definition py_slice_120 (v : PyVal) : result unit :=
  match v with
  | PStr _ | PTuple _ => Ok tt
  | PDict _ => Err (ExcOther "unhashable type: 'slice'")
  | PNone => Err (ExcOther "'NoneType' object is not subscriptable")
  end.

Definition py_len (v : PyVal) : result nat :=
  match v with
  | PStr s => Ok (String.length s)
  | PTuple l => Ok (length l)
  | PDict m => Ok (size m)
  | PNone => Err (ExcOther "object of type 'NoneType' has no len()")
  end.

(** The [try] block of one test case, given what [getFromBingSelenium]
    returned. *)
Definition test_case (ticker : string) (result : PyVal) : test_record :=
  let error e := {| tr_ticker := ticker; tr_status := "ERROR"; tr_error := Some (exc_str e) |} in
  if py_truthy result then
    match py_getitem result "url" with
    | Err e => error e
    | Ok url =>
        match py_slice_120 url with
        | Err e => error e
        | Ok _ =>
            match py_getitem result "content" with
            | Err e => error e
            | Ok content =>
                match py_len content with
                | Err e => error e
                | Ok _ =>
                    match py_getitem result "vcard" with
                    | Err e => error e
                    | Ok vc =>
                        match py_len vc with
                        | Err e => error e
                        | Ok _ => {| tr_ticker := ticker; tr_status := "PASS"; tr_error := None |}
                        end
                    end
                end
            end
        end
    end
  else {| tr_ticker := ticker; tr_status := "FAIL"; tr_error := Some "No data returned" |}.

Definition test_cases : list (string * string) := [("INSULET Corp", "PODD")].

Definition count_status (st : string) (results : list test_record) : nat :=
  length (List.filter (fun r => String.eqb (tr_status r) st) results).

Section BingTest.

Variable wiki_search : string -> result (list string).
Variable wiki_page_of : string -> result wiki_page.
Variable create_driver : result unit.
Variable search_attempt : nat -> result (option string).
(** Whether the worker is still alive after [join(timeout=SEARCH_TIMEOUT)];
    [getFromBingSelenium] then returns [None]. *)
Variable timed_out : string -> string -> bool.

Definition bing_result (company ticker : string) : PyVal :=
  if timed_out company ticker then PNone
  else getFromBingSelenium wiki_search wiki_page_of create_driver search_attempt company ticker RETRIES.

(** [test_bing_selenium()]: the result records, the [passed] count and
    whether it prints the all-passed line. *)
Definition test_bing_selenium : list test_record * nat * bool :=
  let results := map (fun '(company, ticker) => test_case ticker (bing_result company ticker)) test_cases in
  let passed := count_status "PASS" results in
  (results, passed, Nat.eqb passed (length results)).

End BingTest.

(* ------------------------------------------------------------------ *)
(** ** Sample inputs *)

Definition acme_page (html : html_doc) : wiki_page :=
  {| page_url := "https://en.wikipedia.org/wiki/Acme"; page_html := html;
     page_content := "Acme is a company." |}.

Definition acme_infobox : html_doc :=
  [{| table_classes := ["infobox"; "vcard"];
      table_rows := [{| row_th := Some ["Traded as"]; row_td := Some ["NYSE: ACME"] |}] |}].

Definition traded_as_row : row :=
  {| row_th := Some [String.append "Traded" (String nbsp "as")];
     row_td := Some [String.append "NASDAQ:" (String nbsp "ABC[2]")] |}.

Definition acme_doc : doc :=
  {| ticker := "ACME"; company_name := "Acme"; etf_holding_date := "2025-06-30";
     wiki_url := None; wiki_content := None; wiki_vcard := None; wiki_resolver := None |}.

Definition acme_url : string := "https://en.wikipedia.org/wiki/Acme".

Definition see_also_example : string :=
  "Foo[1] Bar[edit]" ++ String Re.nl "== See also ==" ++ String Re.nl "Baz".

Definition shared_newline_example : string :=
  "x" ++ String Re.nl "== Notes ==" ++ String Re.nl "== See also ==" ++ String Re.nl "Y".

(* ================================================================== *)
(** * Theorems *)

(* ------------------------------------------------------------------ *)
(** ** Substring containment *)

Lemma prefixb_spec (p s : string) : prefixb p s = true <-> exists q, s = p ++ q.
Proof.
  revert s; induction p as [|a p IH]; intros s; simpl.
  - split; [intros _; now exists s | auto].
  - destruct s as [|b s].
    + split; [discriminate | intros [q Hq]; discriminate].
    + rewrite andb_true_iff, IH.
      destruct (Ascii.eqb_spec a b) as [->|Hne].
      * split; [intros [_ [q ->]]; now exists q | intros [q Hq]; injection Hq as Hq; eauto].
      * split; [intros [Hf _]; discriminate | intros [q Hq]; injection Hq as ->; congruence].
Qed.

Lemma py_contains_spec (n h : string) : py_contains n h = true <-> exists a b, h = a ++ n ++ b.
Proof.
  induction h as [|c h IH]; simpl; rewrite orb_true_iff, prefixb_spec.
  - split.
    + intros [[q ->]|H]; [now exists "", q | discriminate].
    + intros [a [b Hab]]. left. destruct a; [now exists b | discriminate].
  - rewrite IH. split.
    + intros [[q Hq]|[a [b ->]]].
      * exists "", q. exact Hq.
      * exists (String c a), b. reflexivity.
    + intros [a [b Hab]]. destruct a as [|c' a].
      * left. exists b. exact Hab.
      * right. injection Hab as -> ->. eauto.
Qed.

Lemma py_contains_empty_hay (n : string) : py_contains n "" = true <-> n = "".
Proof.
  rewrite py_contains_spec. split.
  - intros [a [b H]]. destruct a; [destruct n; [reflexivity | discriminate] | discriminate].
  - intros ->. now exists "", "".
Qed.

(* ------------------------------------------------------------------ *)
(** ** C1: the validation gate *)

(** C1 (counterexample): the claim that an identity card without a
    ['Traded as'] field is rejected for every symbol, the empty one
    included, fails: [''] is in [''], so the empty symbol passes. *)
Lemma C1_absent_field_empty_symbol_accepted :
  ~ (forall (s : string) (v : vcard), v !! traded_as_key = None -> ticker_in_vcard s v = false).
Proof.
  intros H. specialize (H "" ∅ (lookup_empty _)). vm_compute in H. discriminate.
Qed.

(** C1 (amended): the gate accepts symbol [s] iff [s] is a case-sensitive
    substring of the ['Traded as'] value; an absent field counts as the
    empty string, so it rejects every non-empty symbol and accepts only the
    empty one; for any card whose ['Traded as'] is
    ["NASDAQ: ABC, NYSE: XYZ"], ["ABC"] and ["XYZ"] pass and ["ABD"] fails. *)
Theorem C1_gate_substring (s : string) (v : vcard) :
  (forall tv, v !! traded_as_key = Some tv ->
     (ticker_in_vcard s v = true <-> exists a b, tv = a ++ s ++ b)) /\
  (v !! traded_as_key = None -> (ticker_in_vcard s v = true <-> s = "")) /\
  (v !! traded_as_key = Some "NASDAQ: ABC, NYSE: XYZ" ->
     ticker_in_vcard "ABC" v = true /\ ticker_in_vcard "XYZ" v = true /\
     ticker_in_vcard "ABD" v = false).
Proof.
  unfold ticker_in_vcard, traded_as. split; [|split].
  - intros tv ->. apply py_contains_spec.
  - intros ->. apply py_contains_empty_hay.
  - intros ->. vm_compute. auto.
Qed.


(* ------------------------------------------------------------------ *)
(** ** C6 and C10: results of [getFromWikipedia] *)



(** C6: when the page title resolves to a disambiguation set, or to no
    page, [getFromWikipedia] returns the all-[None] triple: it never
    returns a candidate built from one of the ambiguous options. *)
Theorem C6_ambiguous_or_missing_page_fails
    (wiki_search : string -> result (list string)) (wiki_page_of : string -> result wiki_page)
    (Company Ticker URL t : string)
    (Ht : page_title wiki_search Company URL = Some t)
    (Hp : (exists options, wiki_page_of t = Err (ExcDisambiguation options)) \/
          wiki_page_of t = Err ExcPageError) :
  getFromWikipedia wiki_search wiki_page_of Company Ticker URL = Ok none3.
Proof.
  unfold getFromWikipedia. rewrite Ht.
  destruct Hp as [[options ->]| ->]; reflexivity.
Qed.

Lemma C6_ambiguous_or_missing_page_fails_witness :
  page_title (fun _ => Ok ["Mercury"]) "Mercury Inc" "" = Some "Mercury" /\
  getFromWikipedia (fun _ => Ok ["Mercury"])
    (fun _ => Err (ExcDisambiguation ["Mercury (planet)"; "Mercury (element)"]))
    "Mercury Inc" "MRCY" "" = Ok none3.
Proof.
  split; [reflexivity|].
  apply (C6_ambiguous_or_missing_page_fails (fun _ => Ok ["Mercury"])
           (fun _ => Err (ExcDisambiguation ["Mercury (planet)"; "Mercury (element)"]))
           "Mercury Inc" "MRCY" "" "Mercury").
  - reflexivity.
  - left. exists ["Mercury (planet)"; "Mercury (element)"]. reflexivity.
Defined.

(** C10 (counterexample): a non-[None] result need not have a
    ['Traded as'] value containing the symbol: with the empty symbol a
    page without an infobox is returned with an empty identity card. *)
Lemma C10_empty_symbol_card_without_traded_as :
  ~ (forall (wiki_search : string -> result (list string)) (wiki_page_of : string -> result wiki_page)
            (Company Ticker URL : string) (r : triple),
       getFromWikipedia wiki_search wiki_page_of Company Ticker URL = Ok r ->
       r = none3 \/
       exists u v c, r = (Some u, Some v, Some c) /\
         exists tv, v !! traded_as_key = Some tv /\ exists a b, tv = a ++ Ticker ++ b).
Proof.
  intros H.
  destruct (H (fun _ => Ok ["Acme"]) (fun _ => Ok (acme_page [])) "Acme" "" ""
              (Some "https://en.wikipedia.org/wiki/Acme", Some ∅,
               Some "Acme is a company.") eq_refl) as [Hn|[u [v [c [Hr [tv [Htv _]]]]]]].
  - discriminate.
  - injection Hr as _ <- _. vm_compute in Htv. discriminate.
Qed.

(** C10 (amended): [getFromWikipedia] returns either the all-[None]
    triple or a fully populated one whose identity card passed the gate:
    the symbol is a substring of the ['Traded as'] value, or the field is
    absent and the symbol is empty. *)
Theorem C10_result_all_none_or_validated
    (wiki_search : string -> result (list string)) (wiki_page_of : string -> result wiki_page)
    (Company Ticker URL : string) (r : triple)
    (H : getFromWikipedia wiki_search wiki_page_of Company Ticker URL = Ok r) :
  r = none3 \/
  exists u v c, r = (Some u, Some v, Some c) /\ ticker_in_vcard Ticker v = true /\
    (forall tv, v !! traded_as_key = Some tv -> exists a b, tv = a ++ Ticker ++ b) /\
    (v !! traded_as_key = None -> Ticker = "").
Proof.
  unfold getFromWikipedia in H.
  destruct (page_title wiki_search Company URL) as [t|]; [|injection H as <-; now left].
  destruct (wiki_page_of t) as [Page|[| |]]; try (injection H as <-; now left); try discriminate.
  destruct (ticker_in_vcard Ticker (ParseVCard (page_html Page))) eqn:Hg; simpl in H;
    [|injection H as <-; now left].
  injection H as <-. right. do 3 eexists. split; [reflexivity|]. split; [exact Hg|].
  pose proof (C1_gate_substring Ticker (ParseVCard (page_html Page))) as [H1 [H2 _]].
  split.
  - intros tv Htv. apply (H1 tv Htv). exact Hg.
  - intros Hn. apply (H2 Hn). exact Hg.
Qed.

Lemma C10_result_all_none_or_validated_witness :
  getFromWikipedia (fun _ => Ok ["Acme"]) (fun _ => Ok (acme_page acme_infobox)) "Acme" "ACME" ""
    = Ok (Some "https://en.wikipedia.org/wiki/Acme", Some (<["Traded as" := "NYSE: ACME"]> ∅),
          Some "Acme is a company.") /\
  (((Some "https://en.wikipedia.org/wiki/Acme", Some (<["Traded as" := "NYSE: ACME"]> ∅),
    Some "Acme is a company.") : triple) = none3 \/
  exists u v c, ((Some "https://en.wikipedia.org/wiki/Acme", Some (<["Traded as" := "NYSE: ACME"]> ∅),
                  Some "Acme is a company.") : triple) = (Some u, Some v, Some c) /\
    ticker_in_vcard "ACME" v = true /\
    (forall tv, v !! traded_as_key = Some tv -> exists a b, tv = a ++ "ACME" ++ b) /\
    (v !! traded_as_key = None -> "ACME" = "")).
Proof.
  split; [vm_compute; reflexivity|].
  apply (C10_result_all_none_or_validated (fun _ => Ok ["Acme"]) (fun _ => Ok (acme_page acme_infobox))
           "Acme" "ACME" "").
  vm_compute. reflexivity.
Defined.


(* ------------------------------------------------------------------ *)
(** ** C8: identity-card extraction *)

Lemma str_truthy_true (s : string) : str_truthy s = true <-> s <> "".
Proof. destruct s; simpl; split; congruence. Qed.

Lemma row_gives_fun (Row : row) (k v v' : string) :
  row_gives Row k v -> row_gives Row k v' -> v = v'.
Proof.
  intros (H & D & Hh & Hd & _ & -> & _) (H' & D' & Hh' & Hd' & _ & -> & _).
  congruence.
Qed.

Lemma parse_row_entry (V : vcard) (Row : row) :
  parse_row V Row = match row_entry Row with Some (k, v) => <[k := v]> V | None => V end.
Proof.
  unfold parse_row, row_entry.
  destruct (row_th Row), (row_td Row); try reflexivity.
  destruct (str_truthy _ && str_truthy _); reflexivity.
Qed.

Lemma row_entry_gives (Row : row) (k v : string) :
  row_entry Row = Some (k, v) <-> row_gives Row k v.
Proof.
  unfold row_entry, row_gives. split.
  - intros He.
    destruct (row_th Row) as [H|], (row_td Row) as [D|]; try discriminate.
    destruct (str_truthy _) eqn:Ek in He; destruct (str_truthy _) eqn:Ev in He;
      try discriminate; simpl in He.
    injection He as <- <-. apply str_truthy_true in Ek, Ev. eauto 10.
  - intros (H & D & -> & -> & -> & -> & Hk & Hv).
    apply str_truthy_true in Hk, Hv. rewrite Hk, Hv. reflexivity.
Qed.

Lemma parse_row_lookup (V : vcard) (Row : row) (k v : string) :
  parse_row V Row !! k = Some v <->
  row_gives Row k v \/ (V !! k = Some v /\ forall v', ~ row_gives Row k v').
Proof.
  rewrite parse_row_entry.
  setoid_rewrite <- row_entry_gives.
  destruct (row_entry Row) as [[k' v']|].
  - rewrite lookup_insert. destruct (decide (k' = k)) as [<-|Hne].
    + split.
      * intros Hv. injection Hv as <-. now left.
      * intros [Hv|[_ Hno]]; [congruence | exfalso; now apply (Hno v')].
    + split.
      * intros Hv. right. split; [exact Hv|]. intros v'' Hv''. apply Hne. congruence.
      * intros [Hv|[Hv _]]; [congruence | exact Hv].
  - split.
    + intros Hv. right. split; [exact Hv | discriminate].
    + intros [Hv|[Hv _]]; [discriminate | exact Hv].
Qed.


Lemma fold_parse_row_lookup (rows : list row) (V : vcard) (k v : string) :
  fold_left parse_row rows V !! k = Some v <->
  (exists pre Row post, rows = (pre ++ Row :: post)%list /\ row_gives Row k v /\
     forall Row' v', In Row' post -> ~ row_gives Row' k v') \/
  (V !! k = Some v /\ forall Row' v', In Row' rows -> ~ row_gives Row' k v').
Proof.
  revert V; induction rows as [|r rows IH]; intros V; simpl.
  - split.
    + intros Hv. right. split; [exact Hv | intros ? ? []].
    + intros [(pre & Row & post & Hl & _)|[Hv _]]; [destruct pre; discriminate | exact Hv].
  - rewrite IH, parse_row_lookup. split.
    + intros [(pre & Row & post & -> & Hg & Hpost)|[[Hg|[Hv Hr]] Hrows]].
      * left. exists (r :: pre), Row, post. auto.
      * left. exists [], r, rows. auto.
      * right. split; [exact Hv|]. intros Row' v' [<-|Hin]; [apply Hr | now apply Hrows].
    + intros [(pre & Row & post & Hl & Hg & Hpost)|[Hv Hno]].
      * destruct pre as [|r' pre]; simpl in Hl; injection Hl as Hr Hl; subst.
        -- right. split; [now left | exact Hpost].
        -- left. exists pre, Row, post. split; [reflexivity|]. auto.
      * right. split.
        -- right. split; [exact Hv|]. intros v'. apply Hno. now left.
        -- intros Row' v' Hin. apply Hno. now right.
Qed.

Lemma find_infobox_first (HTML : html_doc) (Infobox : table) :
  find_infobox HTML = Some Infobox ->
  exists pre post, HTML = (pre ++ Infobox :: post)%list /\ has_infobox_class Infobox /\
    forall t, In t pre -> ~ has_infobox_class t.
Proof.
  unfold find_infobox, has_infobox_class.
  induction HTML as [|t HTML IH]; simpl; [discriminate|].
  destruct (existsb _ (table_classes t)) eqn:Ec.
  - intros He. injection He as <-. exists [], HTML. split; [reflexivity|]. split; [|intros ? []].
    apply existsb_exists in Ec as [c [Hin Hc]]. exists c. split; [exact Hin|].
    apply orb_true_iff in Hc as [Hc|Hc]; apply String.eqb_eq in Hc; auto.
  - intros Hf. destruct (IH Hf) as (pre & post & -> & Hcls & Hpre).
    exists (t :: pre), post. split; [reflexivity|]. split; [exact Hcls|].
    intros t' [<-|Hin]; [|now apply Hpre].
    intros [c [Hin Hc]].
    enough (existsb (fun c => String.eqb c "inforbox" || String.eqb c "vcard")
              (table_classes t) = true) by congruence.
    apply existsb_exists. exists c. split; [exact Hin|].
    destruct Hc as [->| ->]; reflexivity.
Qed.


(** C8: [ParseVCard] works on the first table with an info-region class
    marker; the value it maps a key to is the data text of the last row
    whose header text is that key, both with non-breaking spaces
    normalised, the value with [[digits]] markers removed, rows with an
    empty header or value dropped; with no such table it returns the empty
    mapping; a row with header ["Traded\xa0as"] and data
    ["NASDAQ:\xa0ABC[2]"] gives the entry ["Traded as"] -> ["NASDAQ: ABC"]. *)
Theorem C8_ParseVCard_spec (HTML : html_doc) :
  (find_infobox HTML = None -> ParseVCard HTML = ∅) /\
  (forall Infobox, find_infobox HTML = Some Infobox ->
     (exists pre post, HTML = (pre ++ Infobox :: post)%list /\ has_infobox_class Infobox /\
        forall t, In t pre -> ~ has_infobox_class t) /\
     forall k v, ParseVCard HTML !! k = Some v <->
       exists pre Row post, table_rows Infobox = (pre ++ Row :: post)%list /\ row_gives Row k v /\
         forall Row' v', In Row' post -> ~ row_gives Row' k v') /\
  row_gives traded_as_row "Traded as" "NASDAQ: ABC" /\
  ParseVCard [{| table_classes := ["infobox"; "vcard"]; table_rows := [traded_as_row] |}]
    !! "Traded as" = Some "NASDAQ: ABC".
Proof.
  split; [|split; [|split]].
  - unfold ParseVCard. intros ->. reflexivity.
  - intros Infobox Hf. split; [now apply find_infobox_first|].
    intros k v. unfold ParseVCard. rewrite Hf, fold_parse_row_lookup.
    split.
    + intros [H|[Hv _]]; [exact H | rewrite lookup_empty in Hv; discriminate].
    + intros H. now left.
  - apply row_entry_gives. vm_compute. reflexivity.
  - vm_compute. reflexivity.
Qed.


(* ------------------------------------------------------------------ *)
(** ** C9: the financial-data adapter *)

(** C9 (code bug): the adapter is meant to return [None] when it fails
    (its docstring, and the [try] whose [except Exception] returns [None]),
    but the first read of [yf_ticker.info] comes before the [try]: when
    that request raises (a rate limit or network error), the exception
    leaves [getFromYahooFinance], with no retry under the dashed symbol and
    no [None].  When the first request answers, the function behaves as
    claimed: it queries once more, with every ['.'] replaced by ['-'], only
    when ['longBusinessSummary'] is absent; it never raises; it returns
    [None] when the response used raises or has no non-empty summary, and
    otherwise a candidate, whatever the identity card holds, whose card is
    the items of that response whose names are in the fixed allow-list. *)
Theorem C9_first_query_error_escapes :
  (forall (yf_info : string -> result (list (string * string))) (ticker : string) (e : py_exc),
     yf_info ticker = Err e -> getFromYahooFinance yf_info ticker = (Err e, [ticker])) /\
  (forall (yf_info : string -> result (list (string * string))) (ticker : string) info,
     yf_info ticker = Ok info ->
     let has := dict_has "longBusinessSummary" info in
     let sym := if has then ticker else replace_char "." "-" ticker in
     let r := getFromYahooFinance yf_info ticker in
     snd r = (if has then [ticker] else [ticker; replace_char "." "-" ticker]) /\
     (forall e, fst r <> Err e) /\
     match yf_info sym with
     | Err _ => fst r = Ok None
     | Ok items =>
         let content := default "" (dict_get "longBusinessSummary" items) in
         (fst r = Ok None <-> content = "") /\
         (forall c, fst r = Ok (Some c) ->
            yf_url c = "https://finance.yahoo.com/quote/" ++ ticker /\ yf_content c = content /\
            yf_vcard c = List.filter (fun kv => existsb (String.eqb (fst kv)) vcard_columns) items /\
            forall k v, In (k, v) (yf_vcard c) -> In k vcard_columns /\ In (k, v) items)
     end).
Proof.
  split.
  - intros yf_info ticker e H. unfold getFromYahooFinance. rewrite H. reflexivity.
  - intros yf_info ticker info H has sym r. subst has sym r. unfold getFromYahooFinance.
    rewrite H.
    destruct (dict_has "longBusinessSummary" info) eqn:Eh; cbn [negb];
      [rewrite H | destruct (yf_info (replace_char "." "-" ticker)) as [info'|e'] eqn:Ed];
      [| |cbn [fst snd]; split; [reflexivity|]; split; [intros e; discriminate | reflexivity]];
      match goal with |- context [default "" (dict_get "longBusinessSummary" ?l)] =>
        destruct (default "" (dict_get "longBusinessSummary" l)) eqn:Ec end;
      cbn [str_truthy negb fst snd]; (split; [reflexivity|]);
      (split; [intros e; discriminate|]); (split; [split; congruence|]);
      intros c Hc; try discriminate; injection Hc as <-; cbn [yf_url yf_content yf_vcard];
      (split; [reflexivity|]); (split; [reflexivity|]); (split; [reflexivity|]);
      intros k v Hin; apply filter_In in Hin as [Hin Hk];
      change (existsb (String.eqb k) vcard_columns = true) in Hk;
      apply existsb_exists in Hk as [k' [Hk' Heq]]; apply String.eqb_eq in Heq; subst k'; auto.
Qed.


(* ------------------------------------------------------------------ *)
(** ** C4 and C5: the orchestrator loop *)

Lemma NoDup_map_lookup {A B} (f : A -> B) (l : list A) (i j : nat) (x y : A) :
  NoDup (map f l) -> l !! i = Some x -> l !! j = Some y -> f x = f y -> i = j.
Proof.
  revert i j; induction l as [|a l IH]; intros i j Hnd Hi Hj Hf; [discriminate|].
  inversion Hnd as [|? ? Hnin Hnd']; subst.
  destruct i as [|i], j as [|j]; simpl in Hi, Hj; try reflexivity.
  - injection Hi as <-. exfalso. apply Hnin. rewrite Hf.
    apply list_elem_of_In, in_map, list_elem_of_In. eapply list_elem_of_lookup_2. exact Hj.
  - injection Hj as <-. exfalso. apply Hnin. rewrite <- Hf.
    apply list_elem_of_In, in_map, list_elem_of_In. eapply list_elem_of_lookup_2. exact Hi.
  - f_equal. eauto.
Qed.

Lemma NoDup_map_filter {A B} (f : A -> B) (p : A -> bool) (l : list A) :
  NoDup (map f l) -> NoDup (map f (List.filter p l)).
Proof.
  induction l as [|a l IH]; simpl; intros Hnd; [constructor|].
  inversion Hnd as [|? ? Hnin Hnd']; subst.
  destruct (p a); simpl; [|auto].
  constructor; [|auto].
  intros Hin. apply Hnin. apply list_elem_of_In. apply list_elem_of_In in Hin.
  apply in_map_iff in Hin as [x [Hx Hin]].
  apply filter_In in Hin as [Hin _]. rewrite <- Hx. now apply in_map.
Qed.

Lemma update_one_keys (T D Company u : string) (C : option string) (V : option vcard)
    (s : list doc) :
  map doc_key (update_one T D (set_resolved T Company u C V) s) = map doc_key s.
Proof.
  induction s as [|d s IH]; simpl; [reflexivity|].
  destruct (String.eqb_spec (ticker d) T) as [Ht|]; simpl;
    [destruct (String.eqb_spec (etf_holding_date d) D) as [Hd|]; simpl|].
  - unfold doc_key at 1 3. simpl. rewrite Ht. reflexivity.
  - rewrite IH. reflexivity.
  - rewrite IH. reflexivity.
Qed.

Lemma update_one_other (T D : string) (set : doc -> doc) (s : list doc) (i : nat) (d : doc) :
  s !! i = Some d -> doc_key d <> (T, D) -> update_one T D set s !! i = Some d.
Proof.
  revert i; induction s as [|d' s IH]; intros i Hi Hk; [discriminate|].
  simpl. destruct (String.eqb_spec (ticker d') T) as [Ht|Ht];
    [destruct (String.eqb_spec (etf_holding_date d') D) as [Hd|Hd]|]; simpl.
  - destruct i as [|i]; simpl in Hi |- *.
    + injection Hi as ->. exfalso. apply Hk. unfold doc_key. congruence.
    + exact Hi.
  - destruct i as [|i]; simpl in Hi |- *; [exact Hi | now apply IH].
  - destruct i as [|i]; simpl in Hi |- *; [exact Hi | now apply IH].
Qed.

Lemma update_one_hit (T D : string) (set : doc -> doc) (s : list doc) (i : nat) (d : doc) :
  NoDup (map doc_key s) -> s !! i = Some d -> doc_key d = (T, D) ->
  update_one T D set s !! i = Some (set d).
Proof.
  revert i; induction s as [|d' s IH]; intros i Hnd Hi Hk; [discriminate|].
  inversion Hnd as [|? ? Hnin Hnd']; subst.
  unfold doc_key in Hk. injection Hk as HT HD.
  simpl. destruct (String.eqb_spec (ticker d') T) as [Ht|Ht];
    [destruct (String.eqb_spec (etf_holding_date d') D) as [Hd|Hd]|]; simpl.
  - destruct i as [|i]; simpl in Hi |- *; [congruence|].
    exfalso. apply Hnin. apply list_elem_of_In, in_map_iff. exists d. split.
    + unfold doc_key. congruence.
    + apply list_elem_of_In. eapply list_elem_of_lookup_2. exact Hi.
  - destruct i as [|i]; simpl in Hi |- *; [injection Hi as ->; congruence|].
    apply IH; [exact Hnd' | exact Hi | unfold doc_key; congruence].
  - destruct i as [|i]; simpl in Hi |- *; [injection Hi as ->; congruence|].
    apply IH; [exact Hnd' | exact Hi | unfold doc_key; congruence].
Qed.

Section Orchestrator.

Variable wiki_search : string -> result (list string).
Variable wiki_page_of : string -> result wiki_page.

Lemma process_row_cases (st : run_state) (Row : doc) :
  process_row wiki_search wiki_page_of st Row =
  if row_writes wiki_search wiki_page_of Row then
    {| rs_store := update_one (ticker Row) (etf_holding_date Row)
                     (set_resolved (ticker Row) (company_name Row)
                        (match getFromWikipedia wiki_search wiki_page_of (company_name Row) (ticker Row) "" with
                         | Ok (Some u, _, _) => u | _ => "" end)
                        (match getFromWikipedia wiki_search wiki_page_of (company_name Row) (ticker Row) "" with
                         | Ok (_, _, c) => c | _ => None end)
                        (match getFromWikipedia wiki_search wiki_page_of (company_name Row) (ticker Row) "" with
                         | Ok (_, v, _) => v | _ => None end)) (rs_store st);
       rs_calls := (rs_calls st ++ [doc_key Row])%list;
       rs_writes := (rs_writes st ++ [doc_key Row])%list |}
  else {| rs_store := rs_store st; rs_calls := (rs_calls st ++ [doc_key Row])%list;
          rs_writes := rs_writes st |}.
Proof.
  unfold process_row, row_writes.
  destruct (getFromWikipedia _ _ _ _ _) as [[[[u|] V] C]|e];
    [destruct (str_truthy u) | |]; reflexivity.
Qed.

Lemma orchestrate_fold (rows : list doc) (st : run_state) :
  let st' := fold_left (process_row wiki_search wiki_page_of) rows st in
  map doc_key (rs_store st') = map doc_key (rs_store st) /\
  rs_calls st' = (rs_calls st ++ map doc_key rows)%list /\
  (forall k, In k (rs_writes st') ->
     In k (rs_writes st) \/
     exists r, In r rows /\ row_writes wiki_search wiki_page_of r = true /\ doc_key r = k) /\
  (forall i d, rs_store st !! i = Some d ->
     (forall r, In r rows -> doc_key r = doc_key d -> row_writes wiki_search wiki_page_of r = false) ->
     rs_store st' !! i = Some d).
Proof.
  revert st; induction rows as [|Row rows IH]; intros st; simpl.
  - rewrite app_nil_r. split; [reflexivity|]. split; [reflexivity|].
    split; [auto | auto].
  - rewrite process_row_cases.
    destruct (row_writes wiki_search wiki_page_of Row) eqn:Er;
      match goal with |- context [fold_left _ rows ?st0] =>
        destruct (IH st0) as (Hk & Hc & Hw & Hi); simpl in Hk, Hc, Hw, Hi end.
    + split; [rewrite Hk; apply update_one_keys|].
      split; [rewrite Hc, <- app_assoc; reflexivity|].
      split.
      * intros k Hin. destruct (Hw k Hin) as [Hin'|(r & Hr & Hrw & Hrk)].
        -- apply in_app_or in Hin' as [Hin'|[<-|[]]]; [now left|].
           right. exists Row. auto.
        -- right. exists r. auto.
      * intros i d Hd Hno. apply Hi; [|intros r Hr; apply Hno; now right].
        apply update_one_other; [exact Hd|].
        intros Heq. assert (row_writes wiki_search wiki_page_of Row = false) as Hf
          by (apply Hno; [now left | exact (eq_sym Heq)]).
        congruence.
    + split; [exact Hk|].
      split; [rewrite Hc, <- app_assoc; reflexivity|].
      split.
      * intros k Hin. destruct (Hw k Hin) as [Hin'|(r & Hr & Hrw & Hrk)]; [now left|].
        right. exists r. auto.
      * intros i d Hd Hno. apply Hi; [exact Hd|]. intros r Hr. apply Hno. now right.
Qed.

Lemma orchestrate_tags (rows : list doc) (st : run_state) (i : nat) (d r : doc) :
  NoDup (map doc_key (rs_store st)) -> NoDup (map doc_key rows) ->
  In r rows -> row_writes wiki_search wiki_page_of r = true ->
  rs_store st !! i = Some d -> doc_key d = doc_key r ->
  exists d', rs_store (fold_left (process_row wiki_search wiki_page_of) rows st) !! i = Some d' /\
    doc_key d' = doc_key d /\ wiki_resolver d' = Some "wikipedia".
Proof.
  revert st; induction rows as [|Row rows IH]; intros st Hs Hr Hin Hw Hi Hk; [destruct Hin|].
  inversion Hr as [|? ? Hnin Hr']; subst. cbn [fold_left].
  destruct Hin as [<-|Hin].
  - rewrite process_row_cases, Hw.
    match goal with |- context [fold_left _ rows ?s0] =>
      destruct (orchestrate_fold rows s0) as (_ & _ & _ & Hpres) end.
    eexists. split.
    + apply Hpres.
      * cbn [rs_store]. apply update_one_hit; [exact Hs | exact Hi | exact Hk].
      * intros r' Hr'' Hk'. exfalso. apply Hnin. apply list_elem_of_In.
        replace (doc_key Row) with (doc_key r'); [now apply in_map|].
        rewrite Hk'. unfold doc_key, set_resolved in *. cbn [ticker etf_holding_date].
        injection Hk as _ HD. rewrite HD. reflexivity.
    + split; [|reflexivity]. unfold doc_key, set_resolved in *. cbn [ticker etf_holding_date].
      injection Hk as HT _. rewrite HT. reflexivity.
  - assert (HkR : doc_key Row <> doc_key d).
    { intros E. apply Hnin. apply list_elem_of_In. rewrite E, Hk. now apply in_map. }
    apply IH; [| exact Hr' | exact Hin | exact Hw | | exact Hk].
    + rewrite process_row_cases. destruct (row_writes wiki_search wiki_page_of Row);
        cbn [rs_store]; [rewrite update_one_keys|]; exact Hs.
    + rewrite process_row_cases. destruct (row_writes wiki_search wiki_page_of Row);
        cbn [rs_store]; [|exact Hi].
      apply update_one_other; [exact Hi|]. intros E. apply HkR. rewrite E. reflexivity.
Qed.

End Orchestrator.


Lemma key_unique (s : list doc) (i : nat) (d r : doc) :
  NoDup (map doc_key s) -> s !! i = Some d -> In r s -> doc_key r = doc_key d -> r = d.
Proof.
  intros Hnd Hi Hr Hk.
  apply list_elem_of_In, list_elem_of_lookup_1 in Hr as [j Hj].
  assert (j = i) as -> by (eapply NoDup_map_lookup; eauto).
  congruence.
Qed.

(** C4: the orchestrator's read query selects only records without a
    resolver tag; a successful write (a selected record whose lookup gives a
    URL) leaves that record tagged ['wikipedia'] in the store; and on the
    store a first run leaves behind, a second run neither selects, nor
    attempts, nor writes, nor changes any record that carries the tag, so
    in particular none that the first run wrote (records are identified by
    their [ticker] and [etf_holding_date], the key the write filters on). *)
Theorem C4_orchestrator_idempotent
    (wiki_search : string -> result (list string)) (wiki_page_of : string -> result wiki_page)
    (store0 : list doc) (Hkeys : NoDup (map doc_key store0)) :
  let s1 := rs_store (orchestrate wiki_search wiki_page_of store0) in
  let run2 := orchestrate wiki_search wiki_page_of s1 in
  (forall d, In d (find_unresolved s1) -> wiki_resolver d = None) /\
  (forall i d, s1 !! i = Some d -> wiki_resolver d <> None ->
     ~ In d (find_unresolved s1) /\ ~ In (doc_key d) (rs_calls run2) /\
     ~ In (doc_key d) (rs_writes run2) /\ rs_store run2 !! i = Some d) /\
  (forall i d, store0 !! i = Some d -> wiki_resolver d = None ->
     row_writes wiki_search wiki_page_of d = true ->
     exists d', s1 !! i = Some d' /\ doc_key d' = doc_key d /\ wiki_resolver d' = Some "wikipedia" /\
       ~ In (doc_key d) (rs_calls run2) /\ ~ In (doc_key d) (rs_writes run2)).
Proof.
  intros s1 run2.
  assert (NoDup (map doc_key s1)) as Hk1.
  { unfold s1, orchestrate.
    destruct (orchestrate_fold wiki_search wiki_page_of (find_unresolved store0)
                {| rs_store := store0; rs_calls := []; rs_writes := [] |}) as [-> _].
    exact Hkeys. }
  assert (forall d, In d (find_unresolved s1) -> wiki_resolver d = None) as Hsel.
  { intros d Hd. apply filter_In in Hd as [_ Hd]. unfold is_unresolved in Hd.
    destruct (wiki_resolver d); congruence. }
  assert (Hold : forall i d, s1 !! i = Some d -> wiki_resolver d <> None ->
     ~ In d (find_unresolved s1) /\ ~ In (doc_key d) (rs_calls run2) /\
     ~ In (doc_key d) (rs_writes run2) /\ rs_store run2 !! i = Some d).
  { intros i d Hi Ht.
    assert (forall r, In r (find_unresolved s1) -> doc_key r = doc_key d -> False) as Hno.
    { intros r Hr Hrk. pose proof (Hsel r Hr) as Hru.
      apply filter_In in Hr as [Hr _].
      assert (r = d) as -> by (eapply key_unique; eauto). congruence. }
    destruct (orchestrate_fold wiki_search wiki_page_of (find_unresolved s1)
                {| rs_store := s1; rs_calls := []; rs_writes := [] |}) as (_ & Hc & Hw & Hst).
    fold (orchestrate wiki_search wiki_page_of s1) in Hc, Hw, Hst. fold run2 in Hc, Hw, Hst.
    simpl in Hc, Hw, Hst.
    split; [|split; [|split]].
    - intros Hd. apply (Hno d Hd eq_refl).
    - rewrite Hc. intros Hin. apply in_map_iff in Hin as [r [Hrk Hr]]. exact (Hno r Hr Hrk).
    - intros Hin. destruct (Hw _ Hin) as [[]|(r & Hr & _ & Hrk)]. exact (Hno r Hr Hrk).
    - apply Hst; [exact Hi|]. intros r Hr Hrk. exfalso. exact (Hno r Hr Hrk). }
  split; [exact Hsel|]. split; [exact Hold|].
  intros i d Hi Hu Hwr.
  assert (Hin : In d (find_unresolved store0)).
  { apply filter_In. split.
    - apply list_elem_of_In. eapply list_elem_of_lookup_2. exact Hi.
    - unfold is_unresolved. rewrite Hu. reflexivity. }
  destruct (orchestrate_tags wiki_search wiki_page_of (find_unresolved store0)
              {| rs_store := store0; rs_calls := []; rs_writes := [] |} i d d
              Hkeys (NoDup_map_filter _ _ _ Hkeys) Hin Hwr Hi eq_refl) as (d' & Hd' & Hk' & Ht').
  fold (orchestrate wiki_search wiki_page_of store0) in Hd'. fold s1 in Hd'.
  exists d'. split; [exact Hd'|]. split; [exact Hk'|]. split; [exact Ht'|].
  rewrite <- Hk'. destruct (Hold i d' Hd' ltac:(congruence)) as (_ & H2 & H3 & _). auto.
Qed.

Lemma C4_orchestrator_idempotent_witness :
  NoDup (map doc_key [acme_doc]) /\
  (let s1 := rs_store (orchestrate (fun _ => Ok ["Acme"]) (fun _ => Ok (acme_page acme_infobox))
                                   [acme_doc]) in
   let run2 := orchestrate (fun _ => Ok ["Acme"]) (fun _ => Ok (acme_page acme_infobox)) s1 in
   (forall d, In d (find_unresolved s1) -> wiki_resolver d = None) /\
   (forall i d, s1 !! i = Some d -> wiki_resolver d <> None ->
      ~ In d (find_unresolved s1) /\ ~ In (doc_key d) (rs_calls run2) /\
      ~ In (doc_key d) (rs_writes run2) /\ rs_store run2 !! i = Some d) /\
   (forall i d, [acme_doc] !! i = Some d -> wiki_resolver d = None ->
      row_writes (fun _ => Ok ["Acme"]) (fun _ => Ok (acme_page acme_infobox)) d = true ->
      exists d', s1 !! i = Some d' /\ doc_key d' = doc_key d /\ wiki_resolver d' = Some "wikipedia" /\
        ~ In (doc_key d) (rs_calls run2) /\ ~ In (doc_key d) (rs_writes run2))).
Proof.
  split; [apply NoDup_singleton|].
  apply (C4_orchestrator_idempotent (fun _ => Ok ["Acme"]) (fun _ => Ok (acme_page acme_infobox))
           [acme_doc]).
  apply NoDup_singleton.
Defined.

(** C5: a selected record whose resolution fails (no URL, the gate
    rejects the page, or an exception) gets no [update_one], stays as it
    was, and is attempted exactly once in the run: the attempts are the
    selected records, each once. *)
Theorem C5_failed_record_untouched
    (wiki_search : string -> result (list string)) (wiki_page_of : string -> result wiki_page)
    (store0 : list doc) (Hkeys : NoDup (map doc_key store0))
    (i : nat) (r : doc) (Hi : store0 !! i = Some r) (Hsel : wiki_resolver r = None)
    (Hfail : row_writes wiki_search wiki_page_of r = false) :
  let st := orchestrate wiki_search wiki_page_of store0 in
  rs_store st !! i = Some r /\ ~ In (doc_key r) (rs_writes st) /\
  rs_calls st = map doc_key (find_unresolved store0) /\ NoDup (rs_calls st) /\
  In (doc_key r) (rs_calls st).
Proof.
  intros st.
  destruct (orchestrate_fold wiki_search wiki_page_of (find_unresolved store0)
              {| rs_store := store0; rs_calls := []; rs_writes := [] |}) as (_ & Hc & Hw & Hst).
  fold (orchestrate wiki_search wiki_page_of store0) in Hc, Hw, Hst. fold st in Hc, Hw, Hst.
  simpl in Hc, Hw, Hst.
  assert (forall r', In r' (find_unresolved store0) -> doc_key r' = doc_key r -> r' = r) as Huniq.
  { intros r' Hr' Hk. apply filter_In in Hr' as [Hr' _]. eapply key_unique; eauto. }
  assert (In r (find_unresolved store0)) as Hr.
  { apply filter_In. split.
    - apply list_elem_of_In. eapply list_elem_of_lookup_2. exact Hi.
    - unfold is_unresolved. rewrite Hsel. reflexivity. }
  split; [|split; [|split; [|split]]].
  - apply Hst; [exact Hi|]. intros r' Hr' Hk. rewrite (Huniq r' Hr' Hk). exact Hfail.
  - intros Hin. destruct (Hw _ Hin) as [[]|(r' & Hr' & Hrw & Hk)].
    rewrite (Huniq r' Hr' Hk) in Hrw. congruence.
  - exact Hc.
  - rewrite Hc. apply NoDup_map_filter. exact Hkeys.
  - rewrite Hc. now apply in_map.
Qed.

Lemma C5_failed_record_untouched_witness :
  NoDup (map doc_key [acme_doc]) /\ [acme_doc] !! 0 = Some acme_doc /\
  wiki_resolver acme_doc = None /\
  row_writes (fun _ => Ok ["Acme"]) (fun _ => Ok (acme_page [])) acme_doc = false /\
  (let st := orchestrate (fun _ => Ok ["Acme"]) (fun _ => Ok (acme_page [])) [acme_doc] in
   rs_store st !! 0 = Some acme_doc /\ ~ In (doc_key acme_doc) (rs_writes st) /\
   rs_calls st = map doc_key (find_unresolved [acme_doc]) /\ NoDup (rs_calls st) /\
   In (doc_key acme_doc) (rs_calls st)).
Proof.
  split; [apply NoDup_singleton|]. split; [reflexivity|]. split; [reflexivity|].
  split; [vm_compute; reflexivity|].
  apply (C5_failed_record_untouched (fun _ => Ok ["Acme"]) (fun _ => Ok (acme_page []))
           [acme_doc] (NoDup_singleton _) 0 acme_doc); [reflexivity | reflexivity |].
  vm_compute. reflexivity.
Defined.


(* ------------------------------------------------------------------ *)
(** ** C3: what [getFromBingSelenium] returns after the worker reports *)

Lemma retry_search_ok_or_err (search : nat -> result (option string)) (attempt n : nat)
    (u : option string) :
  (exists u', retry_search search attempt n u = Ok u') \/
  (exists e, retry_search search attempt n u = Err e).
Proof.
  revert attempt u; induction n as [|n IH]; intros attempt u; simpl; [left; eauto|].
  destruct (search attempt) as [u'|e]; [|right; eauto].
  destruct (opt_truthy u'); [left; eauto | apply IH].
Qed.

(** C3 (code bug): the worker always puts exactly one item on the queue;
    but when Bing finds a page whose identity card fails the symbol check,
    [getFromWikipedia] returns the all-[None] triple, the worker reports it
    as ['success'], and [getFromBingSelenium] returns the tuple
    [(None, None, None)], which is truthy, instead of [None]. *)
Theorem C3_failed_validation_returned_as_tuple :
  (forall wiki_search wiki_page_of create_driver search company ticker retries,
     length (_search_with_timeout_worker wiki_search wiki_page_of create_driver search
               company ticker retries) = 1) /\
  getFromWikipedia (fun _ => Ok ["Acme"]) (fun _ => Ok (acme_page acme_infobox))
    "Acme" "XYZQ" acme_url = Ok none3 /\
  _search_with_timeout_worker (fun _ => Ok ["Acme"]) (fun _ => Ok (acme_page acme_infobox))
    (Ok tt) (fun _ => Ok (Some acme_url)) "Acme" "XYZQ" 1
    = [QSuccess acme_url (PTuple [PNone; PNone; PNone])] /\
  getFromBingSelenium (fun _ => Ok ["Acme"]) (fun _ => Ok (acme_page acme_infobox))
    (Ok tt) (fun _ => Ok (Some acme_url)) "Acme" "XYZQ" 1 = PTuple [PNone; PNone; PNone] /\
  py_truthy (PTuple [PNone; PNone; PNone]) = true.
Proof.
  split; [|split; [vm_compute; reflexivity|split; [vm_compute; reflexivity|
                                                    split; [vm_compute; reflexivity | reflexivity]]]].
  intros ws wp cd search company tk retries. unfold _search_with_timeout_worker.
  destruct cd; [|reflexivity].
  destruct (retry_search_ok_or_err search 1 retries None) as [[u' ->]|[e ->]]; [|reflexivity].
  destruct u' as [u|]; [|reflexivity].
  destruct (str_truthy u); [|reflexivity].
  destruct (getFromWikipedia ws wp company tk u); reflexivity.
Qed.

(* ------------------------------------------------------------------ *)
(** ** C2: the timeout path *)

(** C2 (code bug): on the timeout path the caller can return [None] while
    the worker is still running: SIGTERM is sent, the 5-second grace wait
    can elapse (a worker blocked in uninterruptible sleep), SIGKILL is
    sent, and the caller returns at once without waiting for the worker. *)
Theorem C2_worker_running_after_timeout_return :
  exists p',
    Supervision.bing_call
      {| Supervision.running := true; Supervision.sigterm_sent := false;
         Supervision.sigkill_sent := false |} p' (Some PNone) /\
    Supervision.running p' = true /\ Supervision.sigterm_sent p' = true /\
    Supervision.sigkill_sent p' = true.
Proof.
  set (p0 := {| Supervision.running := true; Supervision.sigterm_sent := false;
                Supervision.sigkill_sent := false |}).
  exists (Supervision.kill (Supervision.terminate p0)). split; [|auto].
  apply (Supervision.call_timeout p0 p0 (Supervision.terminate p0)).
  - constructor.
  - reflexivity.
  - constructor.
  - reflexivity.
Qed.


(* ------------------------------------------------------------------ *)
(** ** C7: narrative cleaning *)

Lemma append_cons (x : ascii) (a b : string) : String x a ++ b = String x (a ++ b).
Proof. reflexivity. Qed.

Lemma append_empty (b : string) : "" ++ b = b.
Proof. reflexivity. Qed.

Lemma append_assoc_str (a b c : string) : (a ++ b) ++ c = a ++ (b ++ c).
Proof. induction a as [|x a IH]; [reflexivity|]. rewrite !append_cons, IH. reflexivity. Qed.

Lemma append_nil_str (a : string) : a ++ "" = a.
Proof. induction a as [|x a IH]; [reflexivity|]. rewrite append_cons, IH. reflexivity. Qed.

Lemma string_of_app (l1 l2 : list ascii) :
  string_of_list_ascii (l1 ++ l2) = string_of_list_ascii l1 ++ string_of_list_ascii l2.
Proof.
  induction l1 as [|x l1 IH]; simpl; [reflexivity|]. rewrite append_cons, IH. reflexivity.
Qed.

Lemma list_of_rev_str (s : string) :
  list_ascii_of_string (rev_str s) = rev (list_ascii_of_string s).
Proof. unfold rev_str. apply list_ascii_of_string_of_list_ascii. Qed.

Lemma lstrip_suffix (s : string) :
  exists p, list_ascii_of_string s = (p ++ list_ascii_of_string (lstrip s))%list.
Proof.
  induction s as [|c s IH]; simpl; [now exists []|].
  destruct (py_isspace c).
  - destruct IH as [p Hp]. exists (c :: p). simpl. now rewrite Hp.
  - now exists [].
Qed.

Lemma lstrip_head (s : string) (c : ascii) (t : list ascii) :
  list_ascii_of_string (lstrip s) = c :: t -> py_isspace c = false.
Proof.
  induction s as [|d s IH]; simpl; [discriminate|].
  destruct (py_isspace d) eqn:Ed; [exact IH|].
  simpl. intros H. injection H as <- _. exact Ed.
Qed.

Lemma py_strip_spec (s : string) :
  let R := list_ascii_of_string (py_strip s) in
  (forall c t, R = c :: t -> py_isspace c = false) /\
  (forall t c, R = (t ++ [c])%list -> py_isspace c = false) /\
  exists p q, s = p ++ (py_strip s ++ q).
Proof.
  intros R.
  destruct (lstrip_suffix s) as [p1 Hp1].
  destruct (lstrip_suffix (rev_str (lstrip s))) as [p2 Hp2].
  rewrite list_of_rev_str in Hp2.
  assert (HR : R = rev (list_ascii_of_string (lstrip (rev_str (lstrip s)))))
    by (unfold R, py_strip; apply list_of_rev_str).
  set (W := list_ascii_of_string (lstrip (rev_str (lstrip s)))) in *.
  split; [|split].
  - intros c t Ht. rewrite HR in Ht.
    assert (W = (rev t ++ [c])%list) as HW
      by (rewrite <- (rev_involutive W), Ht; reflexivity).
    rewrite HW, app_assoc in Hp2.
    apply (f_equal (@rev ascii)) in Hp2. rewrite rev_involutive, rev_app_distr in Hp2.
    simpl in Hp2. exact (lstrip_head s c _ Hp2).
  - intros t c Ht. rewrite HR in Ht.
    assert (W = c :: rev t) as HW
      by (rewrite <- (rev_involutive W), Ht, rev_app_distr; reflexivity).
    exact (lstrip_head _ c _ HW).
  - exists (string_of_list_ascii p1), (string_of_list_ascii (rev p2)).
    rewrite <- (string_of_list_ascii_of_string (py_strip s)).
    fold R. rewrite <- !string_of_app, HR, <- rev_app_distr, <- Hp2, rev_involutive, <- Hp1.
    symmetry. apply string_of_list_ascii_of_string.
Qed.

Lemma prefixb_app (n a b : string) : prefixb n a = true -> prefixb n (a ++ b) = true.
Proof.
  revert a; induction n as [|x n IH]; intros a; [reflexivity|].
  destruct a as [|y a]; [discriminate|].
  rewrite append_cons. simpl. rewrite !andb_true_iff. intros [H1 H2]. auto.
Qed.

Lemma py_contains_app_l (n a b : string) : py_contains n a = true -> py_contains n (a ++ b) = true.
Proof.
  induction a as [|x a IH].
  - simpl. rewrite orb_false_r. intros H. destruct n; [destruct b; reflexivity | discriminate].
  - rewrite append_cons. simpl. rewrite !orb_true_iff.
    intros [H|H]; [left; now apply (prefixb_app n (String x a)) | right; auto].
Qed.

Lemma py_contains_app_r (n a b : string) : py_contains n b = true -> py_contains n (a ++ b) = true.
Proof.
  induction a as [|x a IH]; [auto|].
  intros H. rewrite append_cons. simpl. apply orb_true_iff. right. auto.
Qed.

(* ------------------------------------------------------------------ *)
(** ** Cutting at the end sections *)

Lemma prefix_ci_app (p a b : string) : Re.prefix_ci p a = true -> Re.prefix_ci p (a ++ b) = true.
Proof.
  revert a; induction p as [|x p IH]; intros a; [reflexivity|].
  destruct a as [|y a]; [discriminate|].
  rewrite append_cons. simpl. rewrite !andb_true_iff. intros [H1 H2]. auto.
Qed.

Lemma contains_ci_app (p a b : string) :
  Re.contains_ci p a = true -> Re.contains_ci p (a ++ b) = true.
Proof.
  induction a as [|x a IH].
  - simpl. rewrite orb_false_r. intros H. destruct p; [destruct b; reflexivity | discriminate].
  - rewrite append_cons. simpl. rewrite !orb_true_iff.
    intros [H|H]; [left; now apply (prefix_ci_app p (String x a)) | right; auto].
Qed.

Lemma contains_ci_prefix (p a b : string) :
  Re.contains_ci p (a ++ b) = false -> Re.contains_ci p a = false.
Proof.
  intros H. destruct (Re.contains_ci p a) eqn:E; [|reflexivity].
  rewrite (contains_ci_app p a b E) in H. exact H.
Qed.

Lemma split_first_prefix (p s : string) : exists q, s = Re.split_first p s ++ q.
Proof.
  induction s as [|c s IH]; simpl.
  - destruct (Re.prefix_ci p ""); now exists "".
  - destruct (Re.prefix_ci p (String c s)); [now exists (String c s)|].
    destruct IH as [q Hq]. exists q. rewrite append_cons, <- Hq. reflexivity.
Qed.

Lemma split_first_absent (p s : string) :
  p <> "" -> Re.contains_ci p (Re.split_first p s) = false.
Proof.
  intros Hp.
  assert (He : Re.contains_ci p "" = false)
    by (destruct p; [congruence | reflexivity]).
  induction s as [|c s IH]; simpl.
  - destruct (Re.prefix_ci p ""); exact He.
  - destruct (Re.prefix_ci p (String c s)) eqn:Ep; [exact He|].
    change (Re.prefix_ci p (String c (Re.split_first p s)) || Re.contains_ci p (Re.split_first p s)
            = false).
    rewrite IH, orb_false_r.
    destruct (Re.prefix_ci p (String c (Re.split_first p s))) eqn:E; [|reflexivity].
    destruct (split_first_prefix p s) as [q Hq].
    rewrite Hq, <- append_cons, (prefix_ci_app _ _ q E) in Ep. exact Ep.
Qed.

Lemma section_pattern_nonempty (S : string) : section_pattern S <> "".
Proof. discriminate. Qed.

Lemma cut_sections_fold (secs : list string) (T : string) :
  let F := fold_left (fun C Section => Re.split_first (section_pattern Section) C) secs T in
  (exists q, T = F ++ q) /\
  forall S, In S secs -> Re.contains_ci (section_pattern S) F = false.
Proof.
  revert T; induction secs as [|S secs IH]; intros T F; simpl in F.
  - split; [exists ""; unfold F; symmetry; apply append_nil_str | intros _ []].
  - destruct (IH (Re.split_first (section_pattern S) T)) as [[q Hq] Hall]. fold F in Hq, Hall.
    destruct (split_first_prefix (section_pattern S) T) as [q0 Hq0].
    split.
    + exists (q ++ q0). rewrite <- append_assoc_str, <- Hq. exact Hq0.
    + intros S' [<-|HS']; [|auto].
      apply (contains_ci_prefix _ _ q). rewrite <- Hq.
      apply split_first_absent, section_pattern_nonempty.
Qed.

(* ------------------------------------------------------------------ *)
(** ** Collapsing newline runs *)

Lemma lead_nl_cons (c : ascii) (s : string) :
  lead_nl (String c s) = if Ascii.eqb c Re.nl then S (lead_nl s) else O.
Proof. reflexivity. Qed.

Lemma span_nl (t : string) :
  lead_nl (snd (Re.span (Ascii.eqb Re.nl) t)) = O /\
  (String.length (snd (Re.span (Ascii.eqb Re.nl) t)) <= String.length t)%nat.
Proof.
  induction t as [|c t IH]; [split; reflexivity|]. cbn [Re.span].
  destruct (Ascii.eqb Re.nl c) eqn:E.
  - destruct (Re.span (Ascii.eqb Re.nl) t) as [a b]. cbn [snd String.length] in *. lia.
  - cbn [snd String.length]. split; [|lia].
    rewrite lead_nl_cons, Ascii.eqb_sym, E. reflexivity.
Qed.

Lemma match_nl3_some (s rest : string) :
  Re.match_nl3 s = Some rest ->
  (3 <= lead_nl s)%nat /\ lead_nl rest = O /\ (String.length rest < String.length s)%nat.
Proof.
  destruct s as [|a [|b [|c t]]]; cbn [Re.match_nl3]; try discriminate.
  destruct (Ascii.eqb a Re.nl) eqn:Ea, (Ascii.eqb b Re.nl) eqn:Eb, (Ascii.eqb c Re.nl) eqn:Ec;
    cbn [andb]; try discriminate.
  intros H. injection H as <-. destruct (span_nl t) as [H1 H2].
  rewrite !lead_nl_cons, Ea, Eb, Ec. cbn [String.length]. lia.
Qed.

Lemma match_nl3_none (s : string) : Re.match_nl3 s = None -> (lead_nl s < 3)%nat.
Proof.
  destruct s as [|a [|b [|c t]]]; cbn [Re.match_nl3]; rewrite ?lead_nl_cons;
    repeat match goal with |- context [Ascii.eqb ?x Re.nl] => destruct (Ascii.eqb x Re.nl) end;
    cbn [andb lead_nl]; intros H; try discriminate; lia.
Qed.

Lemma prefixb_cons (a b : ascii) (p s : string) :
  prefixb (String a p) (String b s) = Ascii.eqb a b && prefixb p s.
Proof. reflexivity. Qed.

Lemma prefixb_nl3 (s : string) : prefixb nl3 s = true -> (3 <= lead_nl s)%nat.
Proof.
  unfold nl3. destruct s as [|a [|b [|c t]]]; rewrite ?prefixb_cons; try discriminate;
    rewrite ?andb_false_r; try discriminate.
  rewrite !andb_true_iff. intros [Ha [Hb [Hc _]]].
  rewrite !lead_nl_cons, !(Ascii.eqb_sym a), !(Ascii.eqb_sym b), !(Ascii.eqb_sym c), Ha, Hb, Hc. lia.
Qed.

Lemma no_nl3_cons (c : ascii) (x : string) :
  (lead_nl (String c x) < 3)%nat -> py_contains nl3 x = false -> py_contains nl3 (String c x) = false.
Proof.
  intros Hl Hx. change (prefixb nl3 (String c x) || py_contains nl3 x = false).
  rewrite Hx, orb_false_r.
  destruct (prefixb nl3 (String c x)) eqn:E; [|reflexivity].
  apply prefixb_nl3 in E. lia.
Qed.

Lemma sub_nl3_fuel (fuel : nat) (s : string) :
  (String.length s <= fuel)%nat ->
  let r := Re.sub_fuel Re.match_nl3 (String Re.nl (String Re.nl EmptyString)) fuel s in
  py_contains nl3 r = false /\ lead_nl r = Nat.min (lead_nl s) 2.
Proof.
  revert s; induction fuel as [|f IH]; intros s Hs r.
  - destruct s; [split; reflexivity | simpl in Hs; lia].
  - destruct s as [|c t]; [split; reflexivity|].
    unfold r; cbn [Re.sub_fuel].
    destruct (Re.match_nl3 (String c t)) as [rest|] eqn:Em.
    + destruct (match_nl3_some _ _ Em) as [H3 [H0 Hlen]].
      destruct (IH rest ltac:(cbn [String.length] in *; lia)) as [Hc Hl].
      set (y := Re.sub_fuel _ _ f rest) in *.
      rewrite H0 in Hl. rewrite !append_cons, append_empty.
      assert (Hy : lead_nl (String Re.nl (String Re.nl y)) = 2%nat)
        by (rewrite !lead_nl_cons, Hl; reflexivity).
      split; [|rewrite Hy; lia].
      apply no_nl3_cons; [rewrite Hy; lia|].
      apply no_nl3_cons; [rewrite lead_nl_cons, Ascii.eqb_refl, Hl; lia|exact Hc].
    + apply match_nl3_none in Em.
      destruct (IH t ltac:(cbn [String.length] in *; lia)) as [Hc Hl].
      set (y := Re.sub_fuel _ _ f t) in *.
      assert (Hy : lead_nl (String c y) = Nat.min (lead_nl (String c t)) 2).
      { rewrite !lead_nl_cons in *. destruct (Ascii.eqb c Re.nl); rewrite ?Hl; lia. }
      split; [|exact Hy].
      apply no_nl3_cons; [rewrite Hy; lia | exact Hc].
Qed.


Lemma sub_nl3_spec (s : string) :
  py_contains nl3 (Re.sub Re.match_nl3 (String Re.nl (String Re.nl EmptyString)) s) = false.
Proof. apply (sub_nl3_fuel (String.length s) s (le_n _)). Qed.

(** The result of [CleanWikipediaContent] is trimmed and has no run of
    three newlines. *)
Lemma CleanWikipediaContent_shape (Content : string) :
  let R := CleanWikipediaContent Content in
  py_contains nl3 R = false /\
  (forall c t, list_ascii_of_string R = c :: t -> py_isspace c = false) /\
  (forall t c, list_ascii_of_string R = (t ++ [c])%list -> py_isspace c = false).
Proof.
  intros R. unfold R, CleanWikipediaContent.
  destruct (negb (str_truthy Content)).
  - split; [reflexivity|]. split; intros c t H; [discriminate|].
    destruct c; discriminate.
  - set (X := Re.sub Re.match_nl3 _ _).
    destruct (py_strip_spec X) as [Hh [Ht [p [q Hpq]]]].
    split; [|split; assumption].
    destruct (py_contains nl3 (py_strip X)) eqn:E; [|reflexivity].
    pose proof (sub_nl3_spec (cut_end_sections
                  (Re.sub Re.match_note "" (Re.sub Re.match_citation "" Content)))) as HX.
    fold X in HX. rewrite Hpq, (py_contains_app_r nl3 p _ (py_contains_app_l nl3 _ q E)) in HX.
    exact HX.
Qed.

(** C7 (code bug): the claim's cleaning cuts the text at the first place
    where any end-section heading line starts, and the code means to drop
    every end section.  It cuts once per section, in the order of
    [EndSections]; on ["x\n== Notes ==\n== See also ==\nY"] the cut at
    ["See also"] consumes the newline that ends the ["Notes"] heading line,
    which then no longer matches and stays in the result: the code gives
    ["x\n== Notes =="], the claim ["x"].  The claim's own example
    ["Foo[1] Bar[edit]\n== See also ==\nBaz"] does clean to ["Foo Bar"]. *)
Theorem C7_shared_newline_heading_survives :
  CleanWikipediaContent shared_newline_example = "x" ++ String Re.nl "== Notes ==" /\
  clean_as_claimed shared_newline_example = "x" /\
  CleanWikipediaContent see_also_example = "Foo Bar".
Proof. split; [|split]; vm_compute; reflexivity. Qed.

(* ================================================================== *)
(** * Further properties of the code *)

(* ------------------------------------------------------------------ *)
(** ** [quote_plus] and [bing_url] *)

Lemma all_ascii (P : ascii -> bool) :
  forallb P (map ascii_of_nat (seq 0 256)) = true -> forall c, P c = true.
Proof.
  intros H c. rewrite <- (ascii_nat_embedding c).
  rewrite forallb_forall in H. apply H, in_map, in_seq. pose proof (nat_ascii_bounded c). lia.
Qed.

(** The text [quote_plus] gives for one character. *)
Definition quote_char (c : ascii) : string :=
  if Url.always_safe c then String c EmptyString
  else if Ascii.eqb c " " then "+"
  else String.concat "" (map Url.pct (Url.utf8_bytes c)).

Fixpoint quote_str (s : string) : string :=
  match s with
  | EmptyString => EmptyString
  | String c s' => quote_char c ++ quote_str s'
  end.

Lemma string_concat_app (l1 l2 : list string) :
  String.concat "" (l1 ++ l2) = String.concat "" l1 ++ String.concat "" l2.
Proof.
  induction l1 as [|x l1 IH]; [reflexivity|].
  change ((x :: l1) ++ l2)%list with (x :: (l1 ++ l2))%list.
  assert (Hc : forall y l, String.concat "" (y :: l) = y ++ String.concat "" l)
    by (intros y [|z l]; [symmetry; apply append_nil_str | reflexivity]).
  rewrite !Hc, IH. symmetry. apply append_assoc_str.
Qed.

Lemma quote_cons (safe : string) (c : ascii) (s : string) :
  Url.quote safe (String c s) =
  String.concat "" (map (Url.quote_byte safe) (Url.utf8_bytes c)) ++ Url.quote safe s.
Proof.
  unfold Url.quote, Url.utf8_encode. cbn [list_ascii_of_string map concat].
  rewrite map_app. apply string_concat_app.
Qed.

Lemma replace_char_app (a b : ascii) (x y : string) :
  replace_char a b (x ++ y) = replace_char a b x ++ replace_char a b y.
Proof.
  induction x as [|c x IH]; [reflexivity|]. rewrite append_cons. cbn [replace_char].
  rewrite IH. reflexivity.
Qed.

Lemma quote_char_no_space :
  forall c, (Ascii.eqb c " " ||
             String.eqb (String.concat "" (map (Url.quote_byte "") (Url.utf8_bytes c))) (quote_char c))
            = true.
Proof. apply all_ascii. vm_compute. reflexivity. Qed.

Lemma quote_char_space :
  forall c, String.eqb (replace_char " " "+" (String.concat "" (map (Url.quote_byte " ") (Url.utf8_bytes c))))
                       (quote_char c) = true.
Proof. apply all_ascii. vm_compute. reflexivity. Qed.

Lemma quote_plus_quote_str (s : string) : Url.quote_plus s = quote_str s.
Proof.
  unfold Url.quote_plus. destruct (py_contains " " s) eqn:Hs; simpl negb; cbv iota.
  - clear Hs. induction s as [|c s IH]; [reflexivity|].
    rewrite quote_cons, replace_char_app, IH. cbn [quote_str].
    f_equal. apply String.eqb_eq, quote_char_space.
  - induction s as [|c s IH]; [reflexivity|].
    change (prefixb " " (String c s) || py_contains " " s = false) in Hs.
    apply orb_false_iff in Hs as [H1 H2].
    rewrite quote_cons, IH by exact H2. cbn [quote_str]. f_equal.
    pose proof (quote_char_no_space c) as Hc.
    assert (Hne : Ascii.eqb c " " = false).
    { cbn [prefixb] in H1. rewrite andb_true_r in H1. rewrite Ascii.eqb_sym. exact H1. }
    rewrite Hne in Hc. apply String.eqb_eq, Hc.
Qed.

Lemma quote_str_app (a b : string) : quote_str (a ++ b) = quote_str a ++ quote_str b.
Proof.
  induction a as [|c a IH]; [reflexivity|]. rewrite append_cons. cbn [quote_str].
  rewrite IH. symmetry. apply append_assoc_str.
Qed.

Lemma list_ascii_app (a b : string) :
  list_ascii_of_string (a ++ b) = (list_ascii_of_string a ++ list_ascii_of_string b)%list.
Proof. induction a as [|c a IH]; [reflexivity|]. rewrite append_cons. simpl. now rewrite IH. Qed.

Definition url_char (x : ascii) : bool := Url.always_safe x || Ascii.eqb x "+" || Ascii.eqb x "%".

Lemma quote_char_url_chars : forall c, forallb url_char (list_ascii_of_string (quote_char c)) = true.
Proof. apply all_ascii. vm_compute. reflexivity. Qed.

Lemma quote_str_url_chars (s : string) :
  forallb url_char (list_ascii_of_string (quote_str s)) = true.
Proof.
  induction s as [|c s IH]; [reflexivity|]. cbn [quote_str].
  rewrite list_ascii_app, forallb_app, IH, quote_char_url_chars. reflexivity.
Qed.

Lemma decode_quote_char (c : ascii) (r : string) :
  decode_query (quote_char c ++ r) = String c (decode_query r).
Proof. destruct c as [[] [] [] [] [] [] [] []]; reflexivity. Qed.

Lemma decode_quote_str (s : string) : decode_query (quote_str s) = s.
Proof.
  induction s as [|c s IH]; [reflexivity|]. cbn [quote_str].
  rewrite decode_quote_char, IH. reflexivity.
Qed.

Lemma append_cancel_l (p a b : string) : p ++ a = p ++ b -> a = b.
Proof.
  induction p as [|c p IH]; [auto|]. rewrite !append_cons. intros H. injection H. auto.
Qed.

(** [bing_url] of the query [search_bing_for_wiki] builds is the fixed
    prefix, the encoded company name and ["+site%3Awikipedia.org"]; every
    character of an encoded query is an ASCII letter or digit, one of
    ['_.-~'], ['+'] or ['%'], so no query can add a parameter ([&]), a
    fragment ([#]) or a path separator ([/]) to the search URL. *)
Theorem bing_url_query_encoding (company query : string) :
  bing_url (bing_query company) =
    "https://www.bing.com/search?q=" ++ Url.quote_plus company ++ "+site%3Awikipedia.org" /\
  (forall x, In x (list_ascii_of_string (Url.quote_plus query)) ->
     Url.always_safe x = true \/ x = "+"%char \/ x = "%"%char).
Proof.
  split.
  - unfold bing_url, bing_query. rewrite !quote_plus_quote_str, quote_str_app. reflexivity.
  - intros x Hx. rewrite quote_plus_quote_str in Hx.
    pose proof (quote_str_url_chars query) as H. rewrite forallb_forall in H.
    specialize (H x Hx). unfold url_char in H. rewrite !orb_true_iff in H.
    destruct H as [[H|H]|H]; [left; exact H | right; left | right; right]; apply Ascii.eqb_eq, H.
Qed.

(** [quote_plus] loses no information: the query is recovered from its
    encoding, so two different queries never give the same Bing URL. *)
Theorem bing_url_injective (q1 q2 : string) :
  decode_query (Url.quote_plus q1) = q1 /\
  (bing_url q1 = bing_url q2 -> q1 = q2).
Proof.
  split; [rewrite quote_plus_quote_str; apply decode_quote_str|].
  unfold bing_url. intros H. apply append_cancel_l in H.
  rewrite <- (decode_quote_str q1), <- (decode_quote_str q2), <- !quote_plus_quote_str, H.
  reflexivity.
Qed.

Lemma bing_url_injective_witness :
  bing_url "Acme" = bing_url "Acme" /\ "Acme" = "Acme".
Proof. split; [reflexivity | apply (proj2 (bing_url_injective "Acme" "Acme")); reflexivity]. Defined.

(* ------------------------------------------------------------------ *)
(** ** [str.split] and [clean_url] *)

Lemma substring_0_all (r : string) (m : nat) : (String.length r <= m)%nat -> substring 0 m r = r.
Proof.
  revert m; induction r as [|c r IH]; intros m Hm; destruct m; simpl in *; try reflexivity; try lia.
  rewrite IH by lia. reflexivity.
Qed.

Lemma length_app_str (a b : string) : String.length (a ++ b) = (String.length a + String.length b)%nat.
Proof. induction a as [|c a IH]; [reflexivity|]. rewrite append_cons. simpl. lia. Qed.

Lemma substring_app (a r : string) :
  substring (String.length a) (String.length (a ++ r)) (a ++ r) = r.
Proof.
  assert (Hg : forall m, (String.length r <= m)%nat -> substring (String.length a) m (a ++ r) = r).
  { induction a as [|c a IH]; intros m Hm; [apply substring_0_all; exact Hm|].
    rewrite append_cons. cbn [String.length substring]. apply IH, Hm. }
  apply Hg. rewrite length_app_str. lia.
Qed.

Lemma py_join_cons_head (sep p : string) (c : ascii) (ps : list string) :
  py_join sep (String c p :: ps) = String c (py_join sep (p :: ps)).
Proof. destruct ps; [reflexivity|]. cbn [py_join]. apply append_cons. Qed.

Lemma py_join_head (sep p : string) (ps : list string) : exists q, py_join sep (p :: ps) = p ++ q.
Proof. destruct ps as [|p' ps]; [exists ""; symmetry; apply append_nil_str | eexists; reflexivity]. Qed.

Lemma py_contains_empty (sep : string) : sep <> "" -> py_contains sep "" = false.
Proof. destruct sep; [congruence | reflexivity]. Qed.

Lemma split_fuel_spec (sep : string) (f : nat) (s : string) :
  sep <> "" -> (String.length s < f)%nat ->
  let L := split_fuel f sep s in
  L <> [] /\ py_join sep L = s /\ Forall (fun p => py_contains sep p = false) L.
Proof.
  intros Hsep. revert s; induction f as [|f IH]; intros s Hs L; [lia|].
  unfold L; cbn [split_fuel].
  destruct (prefixb sep s) eqn:Hp.
  - apply prefixb_spec in Hp as [r ->]. rewrite substring_app.
    rewrite length_app_str in Hs. assert (0 < String.length sep)%nat by (destruct sep; [congruence | simpl; lia]).
    destruct (IH r ltac:(lia)) as [Hne [Hj Hf]].
    destruct (split_fuel f sep r) as [|p ps] eqn:E; [congruence|].
    split; [discriminate|]. split.
    + change (py_join sep ("" :: p :: ps)) with ("" ++ sep ++ py_join sep (p :: ps)).
      rewrite Hj. reflexivity.
    + constructor; [apply py_contains_empty, Hsep | exact Hf].
  - destruct s as [|c t].
    + split; [discriminate|]. split; [reflexivity|]. constructor; [apply py_contains_empty, Hsep | constructor].
    + destruct (IH t ltac:(simpl in Hs; lia)) as [Hne [Hj Hf]].
      destruct (split_fuel f sep t) as [|p ps] eqn:E; [congruence|].
      split; [discriminate|].
      rewrite py_join_cons_head, Hj. split; [reflexivity|].
      inversion Hf as [|? ? Hp0 Hps]; subst. constructor; [|exact Hps].
      change (prefixb sep (String c p) || py_contains sep p = false). rewrite Hp0, orb_false_r.
      destruct (prefixb sep (String c p)) eqn:E2; [|reflexivity].
      destruct (py_join_head sep p ps) as [q Hq]. rewrite Hq in Hp.
      rewrite <- append_cons, (prefixb_app _ _ q E2) in Hp. exact Hp.
Qed.

Lemma py_split_spec (sep s : string) :
  sep <> "" ->
  let L := py_split sep s in
  L <> [] /\ py_join sep L = s /\ Forall (fun p => py_contains sep p = false) L.
Proof. intros Hsep. apply split_fuel_spec; [exact Hsep | lia]. Qed.

Lemma py_split_first (sep s : string) :
  sep <> "" -> (exists q, s = hd "" (py_split sep s) ++ q) /\ py_contains sep (hd "" (py_split sep s)) = false.
Proof.
  intros Hsep. destruct (py_split_spec sep s Hsep) as [Hne [Hj Hf]].
  destruct (py_split sep s) as [|p ps]; [congruence|]. simpl.
  apply Forall_cons_iff in Hf as [Hp _]. split; [|exact Hp].
  destruct (py_join_head sep p ps) as [q Hq]. exists q. rewrite <- Hj. exact Hq.
Qed.

Lemma py_join_last (sep : string) (L : list string) :
  L <> [] -> exists X, py_join sep L = X ++ List.last L "" /\ (X = "" \/ exists Y, X = Y ++ sep).
Proof.
  induction L as [|p L IH]; intros Hne; [congruence|].
  destruct L as [|p' L].
  - exists "". split; [reflexivity | left; reflexivity].
  - destruct (IH ltac:(discriminate)) as [X [HX HXd]].
    exists (p ++ sep ++ X). split.
    + change (py_join sep (p :: p' :: L)) with (p ++ sep ++ py_join sep (p' :: L)).
      rewrite HX. change (List.last (p :: p' :: L) "") with (List.last (p' :: L) "").
      rewrite !append_assoc_str. reflexivity.
    + right. destruct HXd as [->|[Y ->]].
      * exists p. rewrite append_nil_str. reflexivity.
      * exists (p ++ sep ++ Y). rewrite !append_assoc_str. reflexivity.
Qed.

Lemma no_contains_prefix (n a b : string) : py_contains n (a ++ b) = false -> py_contains n a = false.
Proof.
  intros H. destruct (py_contains n a) eqn:E; [|reflexivity].
  rewrite (py_contains_app_l n a b E) in H. exact H.
Qed.

Lemma clean_url_spec (u : string) :
  (exists q, u = clean_url u ++ q) /\
  py_contains "#" (clean_url u) = false /\ py_contains "?" (clean_url u) = false.
Proof.
  unfold clean_url.
  destruct (py_split_first "#" u ltac:(discriminate)) as [[q1 Hq1] H1].
  set (p1 := hd "" (py_split "#" u)) in *.
  destruct (py_split_first "?" p1 ltac:(discriminate)) as [[q2 Hq2] H2].
  set (p2 := hd "" (py_split "?" p1)) in *.
  split; [exists (q2 ++ q1); rewrite <- append_assoc_str, <- Hq2; exact Hq1|].
  split; [|exact H2].
  rewrite Hq2 in H1. exact (no_contains_prefix _ _ _ H1).
Qed.

(* ------------------------------------------------------------------ *)
(** ** [extract_wikipedia_url] and [search_bing_for_wiki] *)

Section BingProofs.

Variable D : Type.
Variable find_anchors : D -> result nat.
Variable get_href : D -> nat -> result (option string).
Variable current_url : D -> result string.
Variable driver_get : D -> string -> D * result unit.
Variable driver_back : D -> D * result unit.
Variable execute_script : D -> string -> D * result unit.
Variable wait_results : D -> wait_outcome.

Local Notation scanA := (scan_anchor D get_href current_url driver_get driver_back).
Local Notation scansA := (scan_anchors D get_href current_url driver_get driver_back).
Local Notation extract := (extract_wikipedia_url D find_anchors get_href current_url driver_get driver_back).
Local Notation scanU := (scan_upto D get_href current_url driver_get driver_back).

Lemma scan_anchors_seq_found (s m : nat) (d : D) (c : option string) (u : string) (d' : D) :
  scansA (seq s m) d c = (Some u, d') ->
  exists i di ci, (s <= i < s + m)%nat /\ scanU (seq s (i - s)) d c = Next D di ci /\
    scanA di ci i = Found D u d'.
Proof.
  revert s d c; induction m as [|m IH]; intros s d c; cbn [seq scan_anchors]; [discriminate|].
  destruct (scanA d c s) as [u' d''|d'' c'] eqn:E.
  - intros H. injection H as <- <-. exists s, d, c.
    rewrite Nat.sub_diag. split; [lia|]. split; [reflexivity | exact E].
  - intros H. destruct (IH (S s) d'' c' H) as (i & di & ci & Hi & Hu & Hf).
    exists i, di, ci. split; [lia|]. split; [|exact Hf].
    replace (i - s)%nat with (S (i - S s)) by lia. cbn [seq scan_upto]. rewrite E. exact Hu.
Qed.

Lemma scan_anchor_found_cases (d : D) (cur : option string) (idx : nat) (u : string) (d' : D) :
  scanA d cur idx = Found D u d' ->
  exists h, get_href d idx = Ok (Some h) /\
    ((py_contains wiki_marker h = true /\ u = clean_url h /\ d' = d) \/
     (py_contains wiki_marker h = false /\ is_redirect h = true /\
      exists c d2 a, current_url d = Ok c /\ driver_get d h = (d2, Ok tt) /\
        current_url d2 = Ok a /\ py_contains wiki_marker a = true /\ u = clean_url a /\
        d' = fst (driver_back d2))).
Proof.
  unfold scan_anchor. intros H.
  destruct (get_href d idx) as [[href|]|e] eqn:Eh; try discriminate.
  exists href. split; [reflexivity|].
  destruct (negb (str_truthy href)); [discriminate|].
  destruct (py_contains wiki_marker href) eqn:Ew.
  - injection H as <- <-. left. auto.
  - destruct (is_redirect href) eqn:Er; [|discriminate].
    destruct (current_url d) as [c|e] eqn:Ec; [|discriminate].
    destruct (driver_get d href) as [d1 [[]|e]] eqn:Eg; [|discriminate].
    destruct (current_url d1) as [actual|e] eqn:Ea; [|discriminate].
    destruct (str_truthy actual && py_contains wiki_marker actual) eqn:Et; [|discriminate].
    injection H as <- <-. apply andb_prop in Et as [_ Et].
    right. split; [reflexivity|]. split; [reflexivity|].
    exists c, d1, actual. repeat split; assumption.
Qed.

(** When [search_bing_for_wiki] returns a URL [u], the search page was
    loaded and, after the warm-up, anchor [i] of the result anchors is the
    one the scan of the anchors [0 .. i-1] stopped at: either its [href]
    contains ["en.wikipedia.org/wiki/"] and [u] is that [href] cut at ['#']
    and ['?'], the browser left where it was; or its [href] is a redirect
    link, the browser followed it with [driver.get], landed on a URL that
    contains ["en.wikipedia.org/wiki/"], [u] is that URL cut at ['#'] and
    ['?'], and [driver.back()] was called.  Either way [u] has no ['#'] and
    no ['?']. *)
Theorem search_bing_for_wiki_result (company ticker : string) (d : D) (u : string) (d' : D) :
  search_bing_for_wiki D find_anchors get_href current_url driver_get driver_back
    execute_script wait_results company ticker d = (Ok (Some u), d') ->
  py_contains "#" u = false /\ py_contains "?" u = false /\
  exists d1 n i di ci h,
    driver_get d (bing_url (bing_query company)) = (d1, Ok tt) /\
    find_anchors (_human_like_page_warmup D execute_script d1) = Ok n /\ (i < n)%nat /\
    scanU (seq 0 i) (_human_like_page_warmup D execute_script d1) None = Next D di ci /\
    get_href di i = Ok (Some h) /\
    ((py_contains wiki_marker h = true /\ u = clean_url h /\ d' = di) \/
     (py_contains wiki_marker h = false /\ is_redirect h = true /\
      exists c d2 a, current_url di = Ok c /\ driver_get di h = (d2, Ok tt) /\
        current_url d2 = Ok a /\ py_contains wiki_marker a = true /\ u = clean_url a /\
        d' = fst (driver_back d2))).
Proof.
  unfold search_bing_for_wiki.
  destruct (driver_get d (bing_url (bing_query company))) as [d1 [[]|e]] eqn:Eg; [|discriminate].
  intros H.
  assert (Hx : extract (_human_like_page_warmup D execute_script d1) = (Some u, d')).
  { destruct (wait_results _) as [| |e]; try discriminate;
      destruct (extract _) as [[u'|] d3] eqn:E; try discriminate;
      injection H as -> ->; reflexivity. }
  clear H. revert Hx.
  set (d2 := _human_like_page_warmup D execute_script d1).
  unfold extract_wikipedia_url. destruct (find_anchors d2) as [n|e] eqn:En; [|discriminate].
  intros H. destruct (scan_anchors_seq_found 0 n d2 None u d' H) as (i & di & ci & Hi & Hu & Hf).
  rewrite Nat.sub_0_r in Hu.
  destruct (scan_anchor_found_cases di ci i u d' Hf) as [h [Hh Hcase]].
  assert (Hshape : forall x, u = clean_url x -> py_contains "#" u = false /\ py_contains "?" u = false).
  { intros x ->. destruct (clean_url_spec x) as [_ [H1 H2]]. auto. }
  destruct Hcase as [(Hw & Hux & Hd) | (Hw & Hr & c & d3 & a & Hc & Hg & Ha & Hwa & Hua & Hd)].
  - destruct (Hshape h Hux) as [H1 H2]. split; [exact H1|]. split; [exact H2|].
    exists d1, n, i, di, ci, h. repeat (split; [first [reflexivity | exact En | exact Hu | exact Hh | lia]|]).
    left. auto.
  - destruct (Hshape a Hua) as [H1 H2]. split; [exact H1|]. split; [exact H2|].
    exists d1, n, i, di, ci, h. repeat (split; [first [reflexivity | exact En | exact Hu | exact Hh | lia]|]).
    right. split; [exact Hw|]. split; [exact Hr|]. exists c, d3, a. repeat split; assumption.
Qed.

Lemma scan_anchors_no_redirect (idxs : list nat) (d : D) :
  (forall i h, In i idxs -> get_href d i = Ok (Some h) -> is_redirect h = false) ->
  scansA idxs d None =
    (option_map clean_url
       (List.find (py_contains wiki_marker)
          (flat_map (fun i => match get_href d i with
                              | Ok (Some h) => if str_truthy h then [h] else []
                              | _ => []
                              end) idxs)), d).
Proof.
  induction idxs as [|i idxs IH]; intros Hr; [reflexivity|].
  assert (IH' : scansA idxs d None = _) by (apply IH; intros j h' Hj; apply (Hr j h'); right; exact Hj).
  cbn [scan_anchors flat_map]. unfold scan_anchor.
  destruct (get_href d i) as [[h|]|e] eqn:Eh; cbn [app]; cbv iota beta; [|exact IH'|exact IH'].
  destruct (str_truthy h) eqn:Et; cbn [negb app]; cbv iota beta; [|exact IH'].
  cbn [List.find].
  destruct (py_contains wiki_marker h) eqn:Ew; [reflexivity|].
  rewrite (Hr i h (or_introl eq_refl) Eh). exact IH'.
Qed.

(** When no anchor [href] is a Bing or Microsoft redirect link,
    [extract_wikipedia_url] leaves the browser as it is (no [driver.get],
    no [driver.back]) and returns the cleaned first [href] that contains
    ["en.wikipedia.org/wiki/"], or [None]. *)
Theorem extract_without_redirects (d : D) (n : nat) :
  find_anchors d = Ok n ->
  (forall i h, (i < n)%nat -> get_href d i = Ok (Some h) -> is_redirect h = false) ->
  extract d =
    (option_map clean_url (List.find (py_contains wiki_marker) (anchor_hrefs D get_href d n)), d).
Proof.
  intros Hn Hr. unfold extract_wikipedia_url. rewrite Hn.
  apply scan_anchors_no_redirect. intros i h Hi. apply Hr. apply in_seq in Hi. lia.
Qed.

End BingProofs.

(** A result page with an unrelated link followed by a Wikipedia link
    with a fragment. *)
Lemma extract_without_redirects_witness :
  extract_wikipedia_url unit (fun _ => Ok 2%nat)
    (fun _ i => Ok (Some (if Nat.eqb i 0 then "https://example.com/" else "https://en.wikipedia.org/wiki/Acme#History")))
    (fun _ => Ok "") (fun d _ => (d, Ok tt)) (fun d => (d, Ok tt)) tt =
  (Some "https://en.wikipedia.org/wiki/Acme", tt).
Proof.
  refine (eq_trans (extract_without_redirects unit (fun _ => Ok 2%nat) _ _ _ _ tt 2 eq_refl _) _).
  - intros i h Hi Hh. destruct i as [|[|i]]; [| |lia]; injection Hh as <-; vm_compute; reflexivity.
  - vm_compute. reflexivity.
Defined.

Lemma search_bing_for_wiki_result_witness :
  search_bing_for_wiki unit (fun _ => Ok 1%nat)
    (fun _ _ => Ok (Some "https://en.wikipedia.org/wiki/Acme?oldid=1"))
    (fun _ => Ok "") (fun d _ => (d, Ok tt)) (fun d => (d, Ok tt)) (fun d _ => (d, Ok tt))
    (fun _ => WaitFound) "Acme" "ACME" tt = (Ok (Some "https://en.wikipedia.org/wiki/Acme"), tt) /\
  py_contains "#" "https://en.wikipedia.org/wiki/Acme" = false.
Proof.
  split; [vm_compute; reflexivity|].
  apply (search_bing_for_wiki_result unit (fun _ => Ok 1%nat)
    (fun _ _ => Ok (Some "https://en.wikipedia.org/wiki/Acme?oldid=1"))
    (fun _ => Ok "") (fun d _ => (d, Ok tt)) (fun d => (d, Ok tt)) (fun d _ => (d, Ok tt))
    (fun _ => WaitFound) "Acme" "ACME" tt _ tt).
  vm_compute. reflexivity.
Defined.

(* ------------------------------------------------------------------ *)
(** ** The worker's retry loop and [test_bing_selenium] *)

Lemma retry_search_spec (search : nat -> result (option string)) (a n : nat) (w u : option string) :
  opt_truthy w = false ->
  retry_search search a n w = Ok u ->
  (opt_truthy u = true ->
     exists k, (a <= k < a + n)%nat /\ search k = Ok u /\
       forall j, (a <= j < k)%nat -> exists v, search j = Ok v /\ opt_truthy v = false) /\
  (opt_truthy u = false ->
     forall j, (a <= j < a + n)%nat -> exists v, search j = Ok v /\ opt_truthy v = false).
Proof.
  revert a w; induction n as [|n IH]; intros a w Hw; cbn [retry_search].
  - intros H. injection H as <-. split; [congruence | intros _ j Hj; lia].
  - destruct (search a) as [u'|e] eqn:Ea; [|discriminate].
    destruct (opt_truthy u') eqn:Eu.
    + intros H. injection H as <-. split.
      * intros _. exists a. split; [lia|]. split; [exact Ea | intros j Hj; lia].
      * congruence.
    + intros H. destruct (IH (S a) u' Eu H) as [H1 H2]. split.
      * intros Ht. destruct (H1 Ht) as [k [Hk [Hs Hb]]].
        exists k. split; [lia|]. split; [exact Hs|].
        intros j Hj. destruct (Nat.eq_dec j a) as [->|Hne]; [eauto | apply Hb; lia].
      * intros Hf j Hj. destruct (Nat.eq_dec j a) as [->|Hne]; [eauto | apply H2; [exact Hf | lia]].
Qed.

(** The worker reports ['success'] for the URL of the first of the
    [retries] searches that returns a non-empty URL, all earlier ones
    having returned no URL, together with what [getFromWikipedia] returns
    for that URL; it reports ['no_url'] only when the browser started and
    every one of the [retries] searches returned no URL (with
    [retries = 0], without searching at all). *)
Theorem worker_reports_first_url wiki_search wiki_page_of create_driver
    (search : nat -> result (option string)) (company ticker : string) (retries : nat)
    (u : string) (data : PyVal) :
  (_search_with_timeout_worker wiki_search wiki_page_of create_driver search company ticker retries
     = [QSuccess u data] ->
   (exists k, (1 <= k <= retries)%nat /\ search k = Ok (Some u) /\ str_truthy u = true /\
      forall j, (1 <= j < k)%nat -> exists v, search j = Ok v /\ opt_truthy v = false) /\
   exists w, getFromWikipedia wiki_search wiki_page_of company ticker u = Ok w /\ data = triple_py w) /\
  (_search_with_timeout_worker wiki_search wiki_page_of create_driver search company ticker retries
     = [QNoUrl] ->
   (exists drv, create_driver = Ok drv) /\
   forall j, (1 <= j <= retries)%nat -> exists v, search j = Ok v /\ opt_truthy v = false).
Proof.
  unfold _search_with_timeout_worker.
  destruct create_driver as [drv|e]; [|split; discriminate].
  destruct (retry_search search 1 retries None) as [w|e] eqn:Er; [|split; discriminate].
  destruct (retry_search_spec search 1 retries None w eq_refl Er) as [H1 H2].
  destruct w as [w|].
  - destruct (str_truthy w) eqn:Ew.
    + destruct (getFromWikipedia wiki_search wiki_page_of company ticker w) as [t|e] eqn:Eg;
        [|split; discriminate].
      split; [|discriminate].
      intros H. injection H as <- <-.
      destruct (H1 Ew) as [k [Hk [Hs Hb]]]. split; [|eauto].
      exists k. split; [lia|]. split; [exact Hs|]. split; [exact Ew|]. intros j Hj; apply Hb; lia.
    + split; [discriminate|]. intros _. split; [eauto|]. intros j Hj. apply (H2 Ew). lia.
  - split; [discriminate|]. intros _. split; [eauto|]. intros j Hj. apply (H2 eq_refl). lia.
Qed.

Lemma worker_reports_first_url_witness :
  _search_with_timeout_worker (fun _ => Ok ["Acme"]) (fun _ => Ok (acme_page acme_infobox))
    (Ok tt) (fun k => if Nat.eqb k 1 then Ok None else Ok (Some acme_url)) "Acme" "ACME" 2
    = [QSuccess acme_url (triple_py (Some (page_url (acme_page acme_infobox)),
                                     Some (ParseVCard (page_html (acme_page acme_infobox))),
                                     Some (CleanWikipediaContent (page_content (acme_page acme_infobox)))))] /\
  (exists k, (1 <= k <= 2)%nat /\
     (fun k => if Nat.eqb k 1 then Ok None else Ok (Some acme_url)) k = Ok (Some acme_url) /\
     str_truthy acme_url = true /\
     forall j, (1 <= j < k)%nat -> exists v,
       (fun k => if Nat.eqb k 1 then Ok None else Ok (Some acme_url)) j = Ok v /\ opt_truthy v = false).
Proof.
  assert (H : _search_with_timeout_worker (fun _ => Ok ["Acme"]) (fun _ => Ok (acme_page acme_infobox))
    (Ok tt) (fun k => if Nat.eqb k 1 then Ok None else Ok (Some acme_url)) "Acme" "ACME" 2
    = [QSuccess acme_url (triple_py (Some (page_url (acme_page acme_infobox)),
                                     Some (ParseVCard (page_html (acme_page acme_infobox))),
                                     Some (CleanWikipediaContent (page_content (acme_page acme_infobox)))))])
    by (vm_compute; reflexivity).
  split; [exact H|].
  exact (proj1 (proj1 (worker_reports_first_url (fun _ => Ok ["Acme"]) (fun _ => Ok (acme_page acme_infobox))
    (Ok tt) (fun k => if Nat.eqb k 1 then Ok None else Ok (Some acme_url)) "Acme" "ACME" 2 _ _) H)).
Defined.

Lemma bing_result_none_or_tuple wiki_search wiki_page_of create_driver search timed_out
    (company ticker : string) :
  bing_result wiki_search wiki_page_of create_driver search timed_out company ticker = PNone \/
  exists items, bing_result wiki_search wiki_page_of create_driver search timed_out company ticker
                = PTuple items.
Proof.
  unfold bing_result. destruct (timed_out company ticker); [left; reflexivity|].
  unfold getFromBingSelenium, _search_with_timeout_worker.
  destruct create_driver; [|left; reflexivity].
  destruct (retry_search search 1 RETRIES None) as [[w|]|e]; cbn [read_result]; try (left; reflexivity).
  destruct (str_truthy w); [|left; reflexivity].
  destruct (getFromWikipedia wiki_search wiki_page_of company ticker w) as [[[u v] c]|e];
    cbn [read_result]; [|left; reflexivity].
  destruct (py_truthy (triple_py (u, v, c))); [right; eexists; reflexivity | left; reflexivity].
Qed.

(** [test_bing_selenium] never records a pass: [getFromBingSelenium]
    returns [None] (recorded as FAIL) or a tuple, on which
    [result['url']] raises [TypeError] inside the [try] (recorded as
    ERROR); so [passed] is 0 and the all-passed line is never printed. *)
Theorem test_bing_selenium_never_passes wiki_search wiki_page_of create_driver search timed_out :
  let '(results, passed, all_passed) :=
    test_bing_selenium wiki_search wiki_page_of create_driver search timed_out in
  passed = 0%nat /\ all_passed = false /\
  Forall (fun r => (tr_status r = "FAIL" /\ tr_error r = Some "No data returned") \/
                   (tr_status r = "ERROR" /\
                    tr_error r = Some "tuple indices must be integers or slices, not str")) results.
Proof.
  unfold test_bing_selenium, test_cases. cbn [map].
  destruct (bing_result_none_or_tuple wiki_search wiki_page_of create_driver search timed_out
              "INSULET Corp" "PODD") as [->|[items ->]].
  - split; [reflexivity|]. split; [reflexivity|]. repeat constructor; left; split; reflexivity.
  - unfold test_case. cbn [py_truthy]. destruct items as [|it items]; cbn [py_getitem].
    + split; [reflexivity|]. split; [reflexivity|]. repeat constructor; left; split; reflexivity.
    + split; [reflexivity|]. split; [reflexivity|]. repeat constructor; right; split; reflexivity.
Qed.

(* ------------------------------------------------------------------ *)
(** ** [getFromWikipedia] with a given URL, and the exceptions it lets through *)

Lemma page_title_with_url wiki_search (Company URL : string) :
  str_truthy URL = true ->
  page_title wiki_search Company URL =
    (let T := List.last (py_split "/wiki/" URL) "" in if str_truthy T then Some T else None).
Proof.
  intros H. unfold page_title. rewrite H. cbv zeta.
  destruct (str_truthy (List.last (py_split "/wiki/" URL) "")) eqn:E; simpl negb; cbv iota;
    [rewrite E; reflexivity | reflexivity].
Qed.

Lemma last_in_list (L : list string) : L <> [] -> In (List.last L "") L.
Proof.
  intros Hne. destruct (exists_last Hne) as [L' [a ->]].
  rewrite last_last. apply in_or_app. right. left. reflexivity.
Qed.

(** Given a non-empty [URL], [getFromWikipedia] never calls
    [wikipedia.search]; the title it looks up is the text after the last
    ["/wiki/"] that [URL.split('/wiki/')] finds, with no ["/wiki/"] in it,
    or the whole URL when it has none; it gives up (no title) only when
    [URL] ends with ["/wiki/"]. *)
Theorem getFromWikipedia_with_url wiki_search (Company URL : string) :
  str_truthy URL = true ->
  (forall wiki_search' wiki_page_of Ticker,
     getFromWikipedia wiki_search' wiki_page_of Company Ticker URL =
     getFromWikipedia wiki_search wiki_page_of Company Ticker URL) /\
  match page_title wiki_search Company URL with
  | Some T => py_contains "/wiki/" T = false /\
              exists X, URL = X ++ T /\ (X = "" \/ exists Y, X = Y ++ "/wiki/")
  | None => exists Y, URL = Y ++ "/wiki/"
  end.
Proof.
  intros HU. split.
  - intros ws' wp Ticker. unfold getFromWikipedia.
    rewrite !(page_title_with_url _ _ _ HU). reflexivity.
  - rewrite (page_title_with_url _ _ _ HU). cbv zeta.
    destruct (py_split_spec "/wiki/" URL ltac:(discriminate)) as [Hne [Hj Hf]].
    destruct (py_join_last "/wiki/" _ Hne) as [X [HX HXd]]. rewrite Hj in HX.
    destruct (str_truthy (List.last (py_split "/wiki/" URL) "")) eqn:Et.
    + split; [|exists X; auto].
      rewrite Forall_forall in Hf. apply Hf, list_elem_of_In, last_in_list, Hne.
    + destruct (List.last (py_split "/wiki/" URL) ""); [|discriminate].
      rewrite append_nil_str in HX. subst URL.
      destruct HXd as [->|[Y ->]]; [discriminate | exists Y; reflexivity].
Qed.

Lemma getFromWikipedia_with_url_witness :
  str_truthy acme_url = true /\
  (py_contains "/wiki/" "Acme" = false /\
   exists X, acme_url = X ++ "Acme" /\ (X = "" \/ exists Y, X = Y ++ "/wiki/")).
Proof.
  split; [reflexivity|].
  pose proof (proj2 (getFromWikipedia_with_url (fun _ => Ok []) "Acme" acme_url eq_refl)) as H.
  vm_compute in H |- *. exact H.
Defined.

(* ------------------------------------------------------------------ *)
(** ** [CleanWikipediaContent] only deletes characters *)

Lemma span_app (p : ascii -> bool) (t : string) :
  fst (Re.span p t) ++ snd (Re.span p t) = t.
Proof.
  induction t as [|c t IH]; [reflexivity|]. cbn [Re.span].
  destruct (p c); [|reflexivity].
  destruct (Re.span p t) as [a b]. cbn [fst snd] in *. rewrite append_cons, IH. reflexivity.
Qed.

Lemma sub_fuel_sublist (m : string -> option string) (repl : string) :
  (forall s rest, m s = Some rest ->
     exists x, s = x ++ rest /\ list_ascii_of_string repl `sublist_of` list_ascii_of_string x) ->
  forall f s, list_ascii_of_string (Re.sub_fuel m repl f s) `sublist_of` list_ascii_of_string s.
Proof.
  intros Hm f. induction f as [|f IH]; intros s; [reflexivity|].
  destruct s as [|c t]; [reflexivity|]. cbn [Re.sub_fuel].
  destruct (m (String c t)) as [rest|] eqn:E.
  - destruct (Hm _ _ E) as [x [Hx Hr]]. rewrite Hx, !list_ascii_app.
    apply sublist_app; [exact Hr | apply IH].
  - cbn [list_ascii_of_string]. apply sublist_skip, IH.
Qed.

Lemma match_bracketed_suffix (cls : ascii -> bool) (s rest : string) :
  Re.match_bracketed cls s = Some rest ->
  exists x, s = x ++ rest /\ list_ascii_of_string "" `sublist_of` list_ascii_of_string x.
Proof.
  unfold Re.match_bracketed.
  destruct s as [|c t]; [discriminate|].
  pose proof (span_app cls t) as Ht.
  destruct c as [[] [] [] [] [] [] [] []]; try discriminate.
  destruct (Re.span cls t) as [body r]. cbn [fst snd] in Ht. subst t.
  destruct body as [|b body]; [discriminate|].
  destruct r as [|c' r]; [discriminate|].
  destruct c' as [[] [] [] [] [] [] [] []]; try discriminate.
  intros H. injection H as <-.
  exists (String "[" (String b body ++ "]")). split; [|apply sublist_nil_l].
  change (String "[" (String b body ++ "]") ++ r) with (String "[" ((String b body ++ "]") ++ r)).
  rewrite append_assoc_str. reflexivity.
Qed.

Lemma match_nl3_suffix (s rest : string) :
  Re.match_nl3 s = Some rest ->
  exists x, s = x ++ rest /\
    list_ascii_of_string (String Re.nl (String Re.nl EmptyString)) `sublist_of` list_ascii_of_string x.
Proof.
  destruct s as [|a [|b [|c t]]]; cbn [Re.match_nl3]; try discriminate.
  destruct (Ascii.eqb a Re.nl) eqn:Ea, (Ascii.eqb b Re.nl) eqn:Eb, (Ascii.eqb c Re.nl) eqn:Ec;
    cbn [andb]; try discriminate.
  intros H. injection H as <-. apply Ascii.eqb_eq in Ea, Eb. subst a b.
  exists (String Re.nl (String Re.nl (String c (fst (Re.span (Ascii.eqb Re.nl) t))))). split.
  - rewrite !append_cons, span_app. reflexivity.
  - cbn [list_ascii_of_string]. apply sublist_skip, sublist_skip, sublist_nil_l.
Qed.

Lemma length_list_ascii (s : string) : String.length s = length (list_ascii_of_string s).
Proof. induction s as [|c s IH]; simpl; congruence. Qed.

Lemma prefix_sublist (a q : string) :
  list_ascii_of_string a `sublist_of` list_ascii_of_string (a ++ q).
Proof. rewrite list_ascii_app. apply sublist_inserts_r. reflexivity. Qed.

(** [CleanWikipediaContent] only deletes characters: its result is a
    subsequence of its input, so it is never longer and every character in
    it occurs in the input. *)
Theorem CleanWikipediaContent_deletes_only (Content : string) :
  list_ascii_of_string (CleanWikipediaContent Content) `sublist_of` list_ascii_of_string Content /\
  (String.length (CleanWikipediaContent Content) <= String.length Content)%nat.
Proof.
  assert (H : list_ascii_of_string (CleanWikipediaContent Content) `sublist_of`
              list_ascii_of_string Content).
  { unfold CleanWikipediaContent.
    destruct (negb (str_truthy Content)); [apply sublist_nil_l|].
    set (W := Re.sub Re.match_citation "" Content).
    set (Z := Re.sub Re.match_note "" W).
    set (Y := cut_end_sections Z).
    set (X := Re.sub Re.match_nl3 (String Re.nl (String Re.nl EmptyString)) Y).
    transitivity (list_ascii_of_string X).
    { destruct (py_strip_spec X) as [_ [_ [p [q Hpq]]]].
      rewrite Hpq at 2. rewrite !list_ascii_app.
      apply sublist_inserts_l, sublist_inserts_r. reflexivity. }
    transitivity (list_ascii_of_string Y).
    { apply sub_fuel_sublist, match_nl3_suffix. }
    transitivity (list_ascii_of_string Z).
    { destruct (cut_sections_fold EndSections Z) as [[q Hq] _].
      unfold Y, cut_end_sections. rewrite Hq at 2. apply prefix_sublist. }
    transitivity (list_ascii_of_string W).
    { apply sub_fuel_sublist. intros s rest. apply match_bracketed_suffix. }
    apply sub_fuel_sublist. intros s rest. apply match_bracketed_suffix. }
  split; [exact H|]. rewrite !length_list_ascii. apply sublist_length, H.
Qed.

(* ------------------------------------------------------------------ *)
(** *** The keys and values [ParseVCard] stores *)

Lemma replace_char_list (a b : ascii) (s : string) :
  list_ascii_of_string (replace_char a b s) =
  map (fun c => if Ascii.eqb c a then b else c) (list_ascii_of_string s).
Proof. induction s as [|c s IH]; [reflexivity|]. simpl. now rewrite IH. Qed.

Lemma replace_char_not_in (a b : ascii) (s : string) :
  a <> b -> ~ In a (list_ascii_of_string (replace_char a b s)).
Proof.
  intros Hab. rewrite replace_char_list. intros Hin.
  apply in_map_iff in Hin as [c [Hc _]].
  destruct (Ascii.eqb c a) eqn:E; [congruence|].
  subst c. rewrite Ascii.eqb_refl in E. discriminate.
Qed.

Lemma sub_citation_sublist (s : string) :
  list_ascii_of_string (Re.sub Re.match_citation "" s) `sublist_of` list_ascii_of_string s.
Proof. apply sub_fuel_sublist. intros t rest. apply match_bracketed_suffix. Qed.

Lemma get_text_edges (sep : string) (strings : list string) :
  let K := get_text sep strings in
  K <> "" ->
  (forall c t, list_ascii_of_string K = c :: t -> py_isspace c = false) /\
  (forall t c, list_ascii_of_string K = (t ++ [c])%list -> py_isspace c = false).
Proof.
  intros K HK. unfold K, get_text in *.
  remember (List.filter str_truthy (map py_strip strings)) as ps eqn:Eps.
  assert (Hps : forall p, In p ps -> p <> "" /\ exists x, p = py_strip x).
  { intros p Hp. rewrite Eps in Hp. apply filter_In in Hp as [Hp Ht]. apply str_truthy_true in Ht.
    apply in_map_iff in Hp as [x [Hx _]]. split; [exact Ht | exists x; congruence]. }
  destruct ps as [|p ps']; [exfalso; apply HK; reflexivity|].
  split.
  - intros c t Hct.
    destruct (Hps p (or_introl eq_refl)) as [Hp [x ->]].
    destruct (py_join_head sep (py_strip x) ps') as [q Hq]. rewrite Hq, list_ascii_app in Hct.
    destruct (list_ascii_of_string (py_strip x)) as [|c0 t0] eqn:E0.
    + destruct (py_strip x); [congruence | discriminate].
    + injection Hct as <- _. destruct (py_strip_spec x) as [H1 _]. exact (H1 c0 t0 E0).
  - intros t c Hct.
    destruct (py_join_last sep (p :: ps') ltac:(discriminate)) as [X [HX _]].
    set (a := List.last (p :: ps') "") in HX.
    assert (Ha : In a (p :: ps')).
    { destruct (exists_last (l := p :: ps') ltac:(discriminate)) as [l' [a' Hl]].
      unfold a. rewrite Hl, last_last. apply in_or_app. right. left. reflexivity. }
    destruct (Hps a Ha) as [Hne [x Hx]].
    rewrite HX, list_ascii_app in Hct.
    destruct (list_ascii_of_string a) as [|c1 t1] eqn:Ea.
    + destruct a; [congruence | discriminate].
    + destruct (exists_last (l := c1 :: t1) ltac:(discriminate)) as [l' [c' Hl]].
      rewrite Hl, app_assoc in Hct. apply app_inj_tail in Hct as [_ <-].
      destruct (py_strip_spec x) as [_ [H2 _]]. rewrite <- Hx, Ea, Hl in H2. exact (H2 l' c' eq_refl).
Qed.

Lemma replace_nbsp_edges (s : string) :
  (forall c t, list_ascii_of_string s = c :: t -> py_isspace c = false) /\
  (forall t c, list_ascii_of_string s = (t ++ [c])%list -> py_isspace c = false) ->
  (forall c t, list_ascii_of_string (replace_char nbsp " " s) = c :: t -> py_isspace c = false) /\
  (forall t c, list_ascii_of_string (replace_char nbsp " " s) = (t ++ [c])%list -> py_isspace c = false).
Proof.
  assert (Hf : forall c, py_isspace c = false -> (if Ascii.eqb c nbsp then " "%char else c) = c).
  { intros c Hc. destruct (Ascii.eqb c nbsp) eqn:E; [|reflexivity].
    apply Ascii.eqb_eq in E. subst c. discriminate. }
  intros [H1 H2]. rewrite replace_char_list. split.
  - intros c t Hct. apply map_eq_cons in Hct as [c0 [t0 [E [Hc _]]]].
    specialize (H1 c0 t0 E). rewrite <- Hc, (Hf c0 H1). exact H1.
  - intros t c Hct. apply map_eq_app in Hct as [l1 [l2 [E [_ Hl2]]]].
    destruct l2 as [|c0 [|? ?]]; try discriminate.
    injection Hl2 as Hc. specialize (H2 l1 c0 E). rewrite <- Hc, (Hf c0 H2). exact H2.
Qed.

(** Every entry of the dictionary [ParseVCard] returns has a non-empty key
    and a non-empty value, neither contains a non-breaking space, and the
    key neither starts nor ends with a whitespace character. *)
Theorem ParseVCard_entry_shape (HTML : html_doc) (k v : string) :
  ParseVCard HTML !! k = Some v ->
  k <> "" /\ v <> "" /\
  ~ In nbsp (list_ascii_of_string k) /\ ~ In nbsp (list_ascii_of_string v) /\
  (forall c t, list_ascii_of_string k = c :: t -> py_isspace c = false) /\
  (forall t c, list_ascii_of_string k = (t ++ [c])%list -> py_isspace c = false).
Proof.
  unfold ParseVCard. destruct (find_infobox HTML) as [Infobox|].
  2:{ rewrite lookup_empty. discriminate. }
  rewrite fold_parse_row_lookup.
  intros [[pre [Row [post [_ [Hg _]]]]] | [He _]]; [| rewrite lookup_empty in He; discriminate].
  destruct Hg as [Header [Data [_ [_ [-> [-> [Hk Hv]]]]]]].
  assert (Hnb : nbsp <> " "%char) by discriminate.
  split; [exact Hk|]. split; [exact Hv|]. split; [apply replace_char_not_in, Hnb|].
  split.
  - intros Hin. apply (replace_char_not_in nbsp " " (get_text " " Data) Hnb).
    apply list_elem_of_In. apply list_elem_of_In in Hin.
    eapply elem_of_sublist; [exact Hin | apply sub_citation_sublist].
  - apply replace_nbsp_edges, get_text_edges.
    intros E. apply Hk. rewrite E. reflexivity.
Qed.


Lemma ParseVCard_entry_shape_witness :
  let HTML := [{| table_classes := ["vcard"]; table_rows := [traded_as_row] |}] in
  ParseVCard HTML !! "Traded as" = Some "NASDAQ: ABC" /\
  ("Traded as" <> "" /\ "NASDAQ: ABC" <> "" /\
   ~ In nbsp (list_ascii_of_string "Traded as") /\ ~ In nbsp (list_ascii_of_string "NASDAQ: ABC") /\
   (forall c t, list_ascii_of_string "Traded as" = c :: t -> py_isspace c = false) /\
   (forall t c, list_ascii_of_string "Traded as" = (t ++ [c])%list -> py_isspace c = false)).
Proof.
  intros HTML.
  assert (H : ParseVCard HTML !! "Traded as" = Some "NASDAQ: ABC") by (vm_compute; reflexivity).
  split; [exact H | exact (ParseVCard_entry_shape HTML _ _ H)].
Defined.
